(** * Share resolver: a shallow embedding of [src/shared/lib/share.ts]

    The module under study decides how a remote image is handed to
    Instagram from a web page: through the native share sheet
    ([shareImageViaWebShare]) or through a clipboard copy followed by a
    deep link ([shareImageToInstagramDirect]).  Every function of the
    module is translated below; the browser collaborators ([fetch],
    [navigator.share], [navigator.canShare], [navigator.clipboard.write],
    [ClipboardItem], [window.location.assign], [window.open], [URL],
    [Date.now]) are fields of an environment whose behaviour is arbitrary:
    each may return or throw any value, depending on everything that was
    called before.

    Conventions.
    - A JavaScript string is a Rocq [string] whose characters are the code
      units U+0000 to U+00FF.
    - [async]/[await] is sequential composition: the module never starts
      two operations at once.
    - A computation is a function of the environment and of the trace of
      collaborator calls made so far; it yields a value or a thrown
      JavaScript value, and the extended trace. *)

From Stdlib Require Import String Ascii List Bool ZArith NArith Lia.
From Stdlib.Strings Require Import Byte.
Import ListNotations.
Local Open Scope string_scope.
Set Warnings "-register-all".

(* ------------------------------------------------------------------ *)
(** ** JavaScript strings *)

Module JsString.

Definition code (c : ascii) : N := N_of_ascii c.

(** [WhiteSpace] and [LineTerminator] code points below U+0100, the
    characters [String.prototype.trim] removes. *)
Definition isWhiteSpace (c : ascii) : bool :=
  let n := code c in
  ((n =? 9) || (n =? 10) || (n =? 11) || (n =? 12) || (n =? 13)
   || (n =? 32) || (n =? 160))%N.

(** Lower-case mapping of one code unit: A-Z, and the Latin-1 capitals
    U+00C0..U+00DE except the multiplication sign U+00D7. *)
Definition lowerChar (c : ascii) : ascii :=
  let n := code c in
  if ((65 <=? n) && (n <=? 90))%N then ascii_of_N (n + 32)
  else if ((192 <=? n) && (n <=? 222) && negb (n =? 215))%N
       then ascii_of_N (n + 32)
       else c.

(** ASCII-only lower-casing, as the File API applies to media types. *)
Definition asciiLowerChar (c : ascii) : ascii :=
  let n := code c in
  if ((65 <=? n) && (n <=? 90))%N then ascii_of_N (n + 32) else c.

Fixpoint map (f : ascii -> ascii) (s : string) : string :=
  match s with
  | EmptyString => EmptyString
  | String c r => String (f c) (map f r)
  end.

Fixpoint forallb (p : ascii -> bool) (s : string) : bool :=
  match s with
  | EmptyString => true
  | String c r => p c && forallb p r
  end.

Definition toLowerCase (s : string) : string := map lowerChar s.

Fixpoint trimStart (s : string) : string :=
  match s with
  | EmptyString => EmptyString
  | String c r => if isWhiteSpace c then trimStart r else s
  end.

Fixpoint rev_append (s acc : string) : string :=
  match s with
  | EmptyString => acc
  | String c r => rev_append r (String c acc)
  end.

Definition rev (s : string) : string := rev_append s EmptyString.

Definition trimEnd (s : string) : string := rev (trimStart (rev s)).

Definition trim (s : string) : string := trimEnd (trimStart s).

(** [s.split(sep)[0]] for a one-character separator: what precedes the
    first separator, or all of [s]. *)
Fixpoint splitHead (sep : ascii) (s : string) : string :=
  match s with
  | EmptyString => EmptyString
  | String c r =>
      if Ascii.eqb c sep then EmptyString else String c (splitHead sep r)
  end.

Definition startsWith (s p : string) : bool := String.prefix p s.

Definition endsWith (s p : string) : bool := String.prefix (rev p) (rev s).

Definition isEmpty (s : string) : bool :=
  match s with EmptyString => true | _ => false end.

(** [a || b] on strings: the empty string is the only falsy one. *)
Definition orElse (a b : string) : string := if isEmpty a then b else a.

End JsString.

(* ------------------------------------------------------------------ *)
(** ** JavaScript values, as far as thrown errors are inspected *)

Inductive JsVal : Type :=
| VUndefined
| VNull
| VBool (b : bool)
| VNumber (z : Z)
| VNaN
| VBigInt (z : Z)
| VString (s : string)
| VSymbol (description : string)
| VFunction (props : list (string * JsVal))
| VObject (props : list (string * JsVal)).

Module Js.

Definition typeof (v : JsVal) : string :=
  match v with
  | VUndefined => "undefined"
  | VNull => "object"
  | VBool _ => "boolean"
  | VNumber _ | VNaN => "number"
  | VBigInt _ => "bigint"
  | VString _ => "string"
  | VSymbol _ => "symbol"
  | VFunction _ => "function"
  | VObject _ => "object"
  end.

(** [ToBoolean]. *)
Definition truthy (v : JsVal) : bool :=
  match v with
  | VUndefined | VNull | VNaN => false
  | VBool b => b
  | VNumber z | VBigInt z => negb (z =? 0)%Z
  | VString s => negb (JsString.isEmpty s)
  | VSymbol _ | VFunction _ | VObject _ => true
  end.

Fixpoint lookup (k : string) (props : list (string * JsVal)) : JsVal :=
  match props with
  | [] => VUndefined
  | (k', v) :: rest => if String.eqb k k' then v else lookup k rest
  end.

(** [v.k] for a value that has properties; missing ones are [undefined]. *)
Definition get (v : JsVal) (k : string) : JsVal :=
  match v with
  | VObject props | VFunction props => lookup k props
  | _ => VUndefined
  end.

(** [v === s] for a string literal [s]. *)
Definition strictEqString (v : JsVal) (s : string) : bool :=
  match v with
  | VString s' => String.eqb s' s
  | _ => false
  end.

(** [v === false]. *)
Definition strictEqFalse (v : JsVal) : bool :=
  match v with
  | VBool false => true
  | _ => false
  end.

Definition newError (name message : string) : JsVal :=
  VObject [("name", VString name); ("message", VString message)].

Definition Error (message : string) : JsVal := newError "Error" message.
Definition TypeError (message : string) : JsVal := newError "TypeError" message.
Definition ReferenceError (ident : string) : JsVal :=
  newError "ReferenceError" (ident ++ " is not defined").

End Js.

(* ------------------------------------------------------------------ *)
(** ** The data model: payloads, results, files *)

Inductive ShareProviderId := instagram.

Record SharePayload := mkSharePayload {
kind : string;
imageUrl : string;
filename : option string;
title : option string;
text : option string
}.

Inductive ShareMethod := web_share | deep_link | deep_link_clipboard.

Module Clipboard.
Inductive Status := copied | failed | not_supported | skipped.
End Clipboard.

Inductive FetchedVia := direct | next_image_optimizer.

Record ShareDetails := mkShareDetails {
clipboard : Clipboard.Status;
deepLinkOpened : option bool;
fetchedVia : option FetchedVia
}.

Module Reason.
Inductive t :=
| not_in_browser
| not_supported
| clipboard_not_supported
| fetch_failed
| user_cancelled
| unknown.
End Reason.

Inductive ShareResult :=
| ShareOk (provider : ShareProviderId) (method : ShareMethod)
        (details : option ShareDetails)
| ShareFail (provider : ShareProviderId) (reason : Reason.t)
          (error : option JsVal).

Record Blob := mkBlob {
blob_type : string;
blob_bytes : list byte
}.

(** [PreparedFile]: a [File] with the optional [__fetchedVia] tag. *)
Record File := mkFile {
file_bytes : list byte;
file_name : string;
file_type : string;
file_lastModified : Z;
__fetchedVia : option FetchedVia
}.

Record ShareData := mkShareData {
share_files : list File;
share_title : option string;
share_text : option string
}.

(** The File API keeps a media type only when all its characters are in
  U+0020..U+007E, and lower-cases it. *)
Definition normalizeMediaType (t : string) : string :=
if JsString.forallb
     (fun c => (32 <=? JsString.code c)%N && (JsString.code c <=? 126)%N) t
then JsString.map JsString.asciiLowerChar t
else "".

(** [new File([blob], name, {type, lastModified})]. *)
Definition newFile (b : Blob) (name type : string) (lastModified : Z) : File :=
{| file_bytes := blob_bytes b;
   file_name := name;
   file_type := normalizeMediaType type;
   file_lastModified := lastModified;
   __fetchedVia := None |}.

(** [file.slice(0, file.size, contentType)]. *)
Definition sliceAll (f : File) (contentType : string) : Blob :=
{| blob_type := normalizeMediaType contentType;
   blob_bytes := file_bytes f |}.

Module DirectOptions.
Inductive Target := story_camera | app.

(** [Omit<SharePayload, "kind"> & { file?, target?, skipClipboard? }]. *)
Record t := mk {
  imageUrl : string;
  filename : option string;
  title : option string;
  text : option string;
  file : option File;
  target : option Target;
  skipClipboard : option bool
}.
End DirectOptions.

(* ------------------------------------------------------------------ *)
(** ** The browser: collaborators, traces, computations *)

(** One entry per call that reaches a browser collaborator. *)
Inductive Event :=
| EvFetch (url : string)
| EvResponseBlob (url : string)
| EvNewURL (path base : string)
| EvCanShare (files : list File)
| EvShare (data : ShareData)
| EvNewClipboardItem (mime : string) (b : Blob)
| EvClipboardWrite (mime : string) (b : Blob)
| EvLocationAssign (url : string)
| EvWindowOpen (url target : string).

Definition Trace := list Event.

Inductive Outcome (A : Type) :=
| Ret (a : A)
| Throw (e : JsVal).
Arguments Ret {A} a.
Arguments Throw {A} e.

(** A property of a host object that the code probes before calling it. *)
Inductive Slot (F : Type) :=
| Absent
| Nullish
| NotCallable
| Callable (f : F).
Arguments Absent {F}.
Arguments Nullish {F}.
Arguments NotCallable {F}.
Arguments Callable {F} f.

Record Response := mkResponse {
  response_ok : bool;
  response_blob : Trace -> Outcome Blob
}.

Record ClipboardObject := mkClipboardObject {
  clipboard_write : Slot (Trace -> string -> Blob -> Outcome unit)
}.

Record Navigator := mkNavigator {
  navigator_share : Slot (Trace -> ShareData -> Outcome unit);
  navigator_canShare : Slot (Trace -> list File -> Outcome JsVal);
  navigator_clipboard : option ClipboardObject
}.

(** [window.location.origin]: a scheme/host/port origin in its serialized
    form, or an opaque origin, which serializes to ["null"]. *)
Inductive Origin :=
| TupleOrigin (serialized : string)
| OpaqueOrigin.

Record Location := mkLocation {
  location_origin : Origin;
  location_assign : Trace -> string -> Outcome unit
}.

Record Window := mkWindow {
  window_location : Location;
  window_open : Trace -> string -> string -> Outcome unit
}.

(** The globals the module reads.  [None] is an undeclared or undefined
    global; every function receives the trace of the calls made before. *)
Record Env := mkEnv {
  env_window : option Window;
  env_navigator : option Navigator;
  env_ClipboardItem : option (Trace -> string -> Blob -> Outcome unit);
  env_fetch : option (Trace -> string -> Outcome (option Response));
  env_now : Trace -> Z
}.

Definition M (A : Type) : Type := Env -> Trace -> Outcome A * Trace.

Definition ret {A} (a : A) : M A := fun _ t => (Ret a, t).

Definition throw {A} (e : JsVal) : M A := fun _ t => (Throw e, t).

Definition bind {A B} (m : M A) (k : A -> M B) : M B :=
  fun env t =>
    match m env t with
    | (Ret a, t') => k a env t'
    | (Throw e, t') => (Throw e, t')
    end.

(** [try { m } catch (e) { h e }]. *)
Definition try_catch {A} (m : M A) (h : JsVal -> M A) : M A :=
  fun env t =>
    match m env t with
    | (Ret a, t') => (Ret a, t')
    | (Throw e, t') => h e env t'
    end.

Definition ask : M Env := fun env t => (Ret env, t).

(** Calling a collaborator: it sees the calls made so far, and the call is
    appended to the trace whatever its outcome. *)
Definition call {A} (ev : Event) (f : Trace -> Outcome A) : M A :=
  fun _ t => (f t, (t ++ [ev])%list).

Definition run {A} (m : M A) (env : Env) (t : Trace) : Outcome A * Trace :=
  m env t.

Declare Scope js_scope.
Delimit Scope js_scope with js.
Notation "x <- m ;; k" := (bind m (fun x => k))
  (at level 100, m at next level, right associativity) : js_scope.
Notation "m ;; k" := (bind m (fun _ => k))
  (at level 100, right associativity) : js_scope.
Local Open Scope js_scope.

(** Reading the global [window]; a [ReferenceError] when it is missing. *)
Definition global_window : M Window :=
  env <- ask ;;
  match env_window env with
  | Some w => ret w
  | None => throw (Js.ReferenceError "window")
  end.

Definition global_navigator : M Navigator :=
  env <- ask ;;
  match env_navigator env with
  | Some n => ret n
  | None => throw (Js.ReferenceError "navigator")
  end.

(** [typeof window === "undefined" || typeof navigator === "undefined"]. *)
Definition notInBrowser : M bool :=
  env <- ask ;;
  ret (match env_window env, env_navigator env with
       | Some _, Some _ => false
       | _, _ => true
       end).

(** [Date.now()]. *)
Definition Date_now : M Z := fun env t => (Ret (env_now env t), t).

(** [fetch(url, { mode: "cors" })], awaited. *)
Definition fetch_cors (url : string) : M (option Response) :=
  env <- ask ;;
  match env_fetch env with
  | Some f => call (EvFetch url) (fun t => f t url)
  | None => throw (Js.ReferenceError "fetch")
  end.

(* ------------------------------------------------------------------ *)
(** ** [URL] and [URLSearchParams] *)

Record URL := mkURL {
  url_origin : string;
  url_pathname : string;
  url_searchParams : list (string * string)
}.

Definition serializeOrigin (o : Origin) : string :=
  match o with
  | TupleOrigin s => s
  | OpaqueOrigin => "null"
  end.

(** [new URL(path, base)] for an absolute path and a base that is an
    origin: ["null"] is not a valid base. *)
Definition new_URL (path : string) (base : Origin) : M URL :=
  call (EvNewURL path (serializeOrigin base))
       (fun _ => match base with
                 | TupleOrigin s =>
                     Ret {| url_origin := s; url_pathname := path;
                            url_searchParams := [] |}
                 | OpaqueOrigin => Throw (Js.TypeError "Invalid base URL")
                 end).

Fixpoint removeKey (k : string) (ps : list (string * string))
  : list (string * string) :=
  match ps with
  | [] => []
  | (k', v') :: r =>
      if String.eqb k' k then removeKey k r else (k', v') :: removeKey k r
  end.

(** [searchParams.set(k, v)]: the first pair named [k] takes the value and
    the later ones go; without such a pair, [(k, v)] is appended. *)
Fixpoint searchParams_set (k v : string) (ps : list (string * string))
  : list (string * string) :=
  match ps with
  | [] => [(k, v)]
  | (k', v') :: r =>
      if String.eqb k' k then (k, v) :: removeKey k r
      else (k', v') :: searchParams_set k v r
  end.

Definition URL_set (u : URL) (k v : string) : URL :=
  {| url_origin := url_origin u; url_pathname := url_pathname u;
     url_searchParams := searchParams_set k v (url_searchParams u) |}.

Definition hexDigit (n : N) : ascii :=
  if (n <? 10)%N then ascii_of_N (48 + n) else ascii_of_N (55 + n).

(** The UTF-8 bytes of a code unit below U+0100. *)
Definition utf8 (c : ascii) : list N :=
  let n := JsString.code c in
  if (n <? 128)%N then [n] else [(192 + n / 64)%N; (128 + n mod 64)%N].

(** application/x-www-form-urlencoded byte serializing. *)
Definition formEncodeByte (n : N) : string :=
  if ((48 <=? n) && (n <=? 57) || (65 <=? n) && (n <=? 90)
      || (97 <=? n) && (n <=? 122)
      || (n =? 42) || (n =? 45) || (n =? 46) || (n =? 95))%N
  then String (ascii_of_N n) EmptyString
  else if (n =? 32)%N then "+"
  else String "%" (String (hexDigit (n / 16)) (String (hexDigit (n mod 16)) EmptyString)).

Fixpoint formEncode (s : string) : string :=
  match s with
  | EmptyString => EmptyString
  | String c r =>
      fold_right (fun b acc => formEncodeByte b ++ acc) (formEncode r) (utf8 c)
  end.

Fixpoint serializeParams (ps : list (string * string)) : string :=
  match ps with
  | [] => ""
  | [(k, v)] => formEncode k ++ "=" ++ formEncode v
  | (k, v) :: r => formEncode k ++ "=" ++ formEncode v ++ "&" ++ serializeParams r
  end.

(** [url.toString()]. *)
Definition URL_toString (u : URL) : string :=
  url_origin u ++ url_pathname u ++
  match url_searchParams u with
  | [] => ""
  | ps => "?" ++ serializeParams ps
  end.

(* ------------------------------------------------------------------ *)
(** ** The functions of [share.ts] *)

Definition extensionFromContentType (contentType : string) : string :=
  let type :=
    JsString.trim (JsString.splitHead ";" (JsString.toLowerCase contentType)) in
  if String.eqb type "image/png" then ".png"
  else if String.eqb type "image/jpeg" then ".jpg"
  else if String.eqb type "image/webp" then ".webp"
  else if String.eqb type "image/gif" then ".gif"
  else "".

Definition isAbortError (error : JsVal) : bool :=
  if Js.truthy error && String.eqb (Js.typeof error) "object"
  then Js.strictEqString (Js.get error "name") "AbortError"
  else false.

Definition inferImageMime (file : File) : option string :=
  if negb (JsString.isEmpty (file_type file))
     && JsString.startsWith (file_type file) "image/"
  then Some (file_type file)
  else
    let name := JsString.toLowerCase (file_name file) in
    if JsString.endsWith name ".png" then Some "image/png"
    else if JsString.endsWith name ".jpg" || JsString.endsWith name ".jpeg"
    then Some "image/jpeg"
    else if JsString.endsWith name ".webp" then Some "image/webp"
    else if JsString.endsWith name ".gif" then Some "image/gif"
    else None.

(** The resolved value is [null] ([None]) when [fetch] throws or rejects,
    when there is no response object, when [response.ok] is false, and
    when [response.blob()] fails. *)
Definition tryFetchBlob (url : string) : M (option Blob) :=
  try_catch
    (response <- fetch_cors url ;;
     match response with
     | None => throw (Js.TypeError "Cannot read properties of undefined")
     | Some r =>
         if negb (response_ok r) then ret None
         else (b <- call (EvResponseBlob url) (response_blob r) ;;
               ret (Some b))
     end)
    (fun _ => ret None).

(** [filename?.trim() || `shared-image${inferredExtension}`]. *)
Definition safeName (filename : option string) (inferredExtension : string)
  : string :=
  match filename with
  | Some f => JsString.orElse (JsString.trim f) ("shared-image" ++ inferredExtension)
  | None => "shared-image" ++ inferredExtension
  end.

Definition fileFromBlob (blob : Blob) (filename : option string)
    (via : FetchedVia) : M File :=
  let contentType := JsString.orElse (blob_type blob) "" in
  let inferredExtension := extensionFromContentType contentType in
  let name := safeName filename inferredExtension in
  now <- Date_now ;;
  let file :=
    newFile blob name
            (JsString.orElse contentType "application/octet-stream") now in
  ret {| file_bytes := file_bytes file;
         file_name := file_name file;
         file_type := file_type file;
         file_lastModified := file_lastModified file;
         __fetchedVia := Some via |}.

Definition buildNextImageOptimizerUrl (remoteUrl : string) : M string :=
  w <- global_window ;;
  url <- new_URL "/_next/image" (location_origin (window_location w)) ;;
  let url := URL_set url "url" remoteUrl in
  let url := URL_set url "w" "1080" in
  let url := URL_set url "q" "90" in
  ret (URL_toString url).

Record FileFromUrlOptions := mkFileFromUrlOptions {
  allowNextImageOptimizerFallback : option bool
}.

Definition failedToFetch : JsVal :=
  Js.Error "Failed to fetch image (direct and fallback).".

Definition fileFromUrl (imageUrl : string) (filename : option string)
    (options : option FileFromUrlOptions) : M File :=
  directBlob <- tryFetchBlob imageUrl ;;
  match directBlob with
  | Some b => fileFromBlob b filename direct
  | None =>
      env <- ask ;;
      let allowed :=
        match options with
        | Some o =>
            match allowNextImageOptimizerFallback o with
            | Some b => b
            | None => false
            end
        | None => false
        end in
      let hasWindow :=
        match env_window env with Some _ => true | None => false end in
      if allowed && hasWindow then
        optimizerUrl <- buildNextImageOptimizerUrl imageUrl ;;
        viaNext <- tryFetchBlob optimizerUrl ;;
        match viaNext with
        | Some b => fileFromBlob b filename next_image_optimizer
        | None => throw failedToFetch
        end
      else throw failedToFetch
  end.

Definition prepareShareImageFile (imageUrl : string)
    (filename : option string) : M File :=
  fileFromUrl imageUrl filename
              (Some {| allowNextImageOptimizerFallback := Some true |}).

(** [inferImageMime(file) || "image/png"]. *)
Definition clipboardMime (file : File) : string :=
  match inferImageMime file with
  | Some m => JsString.orElse m "image/png"
  | None => "image/png"
  end.

Definition tryWriteImageToClipboard (file : File) : M bool :=
  nav <- global_navigator ;;
  match navigator_clipboard nav with
  | None => ret false
  | Some clipboard =>
      match clipboard_write clipboard with
      | Callable write =>
          env <- ask ;;
          match env_ClipboardItem env with
          | None => ret false
          | Some newClipboardItem =>
              let mime := clipboardMime file in
              try_catch
                (let blob := sliceAll file mime in
                 call (EvNewClipboardItem mime blob)
                      (fun t => newClipboardItem t mime blob) ;;
                 call (EvClipboardWrite mime blob)
                      (fun t => write t mime blob) ;;
                 ret true)
                (fun _ => ret false)
          end
      | _ => ret false
      end
  end.

Definition isClipboardWriteSupported : M bool :=
  nav <- global_navigator ;;
  match navigator_clipboard nav with
  | None => ret false
  | Some clipboard =>
      match clipboard_write clipboard with
      | Callable _ =>
          env <- ask ;;
          ret (match env_ClipboardItem env with
               | Some _ => true
               | None => false
               end)
      | _ => ret false
      end
  end.

Definition location_assign_call (url : string) : M unit :=
  w <- global_window ;;
  call (EvLocationAssign url) (fun t => location_assign (window_location w) t url).

Definition window_open_call (url target : string) : M unit :=
  w <- global_window ;;
  call (EvWindowOpen url target) (fun t => window_open w t url target).

Definition tryOpenDeepLink (url : string) : M bool :=
  try_catch
    (location_assign_call url ;; ret true)
    (fun _ =>
       try_catch
         (window_open_call url "_blank" ;; ret true)
         (fun _ => ret false)).

(** Lines 181-190 of [shareImageViaWebShare]: the optional
    [navigator.canShare] probe.  [true] stands for the early return inside
    the [try]; an exception thrown by the probe is swallowed. *)
Definition canShareStep (nav : Navigator) (file : File) : M bool :=
  try_catch
    (match navigator_canShare nav with
     | Absent => ret false
     | Nullish => ret false
     | NotCallable =>
         throw (Js.TypeError "navigator.canShare is not a function")
     | Callable canShare_fn =>
         canShare <- call (EvCanShare [file]) (fun t => canShare_fn t [file]) ;;
         ret (Js.strictEqFalse canShare)
     end)
    (fun _ => ret false).

Definition shareDataFor (payload : SharePayload) (file : File) : ShareData :=
  {| share_files := [file];
     share_title := title payload;
     share_text := text payload |}.

Definition shareImageViaWebShare (payload : SharePayload) : M ShareResult :=
  nib <- notInBrowser ;;
  if nib then ret (ShareFail instagram Reason.not_in_browser None)
  else
    nav <- global_navigator ;;
    match navigator_share nav with
    | Callable navigator_share_fn =>
        if negb (String.eqb (kind payload) "image")
        then ret (ShareFail instagram Reason.unknown None)
        else
          fetched <-
            try_catch
              (f <- fileFromUrl (imageUrl payload) (filename payload) None ;;
               ret (inl f))
              (fun error =>
                 ret (inr (ShareFail instagram Reason.fetch_failed (Some error)))) ;;
          match fetched with
          | inr failure => ret failure
          | inl file =>
              rejected <- canShareStep nav file ;;
              if rejected
              then ret (ShareFail instagram Reason.not_supported None)
              else
                let data := shareDataFor payload file in
                try_catch
                  (call (EvShare data) (fun t => navigator_share_fn t data) ;;
                   ret (ShareOk instagram web_share None))
                  (fun error =>
                     if isAbortError error
                     then ret (ShareFail instagram Reason.user_cancelled
                                         (Some error))
                     else ret (ShareFail instagram Reason.unknown (Some error)))
          end
    | _ => ret (ShareFail instagram Reason.not_supported None)
    end.

Definition providers (id : ShareProviderId) : SharePayload -> M ShareResult :=
  match id with
  | instagram => shareImageViaWebShare
  end.

Record ShareOptions := mkShareOptions {
  provider : ShareProviderId;
  payload : SharePayload
}.

Definition share (options : ShareOptions) : M ShareResult :=
  providers (provider options) (payload options).

(** [options] is a payload without its [kind]; the wrapper sets it. *)
Definition shareImageToInstagram (options : SharePayload) : M ShareResult :=
  share {| provider := instagram;
           payload := {| kind := "image";
                         imageUrl := imageUrl options;
                         filename := filename options;
                         title := title options;
                         text := text options |} |}.

(** Lines 108-134 of [shareImageToInstagramDirect]: the clipboard step.
    The three mutable locals [clipboardOk], [clipboardStatus] and
    [fetchedVia] are returned as a triple.  Inside the [try], every
    assignment comes after the last call that can throw, so the [catch]
    sees [fetchedVia] still undefined. *)
Definition directClipboardStep (options : DirectOptions.t)
  : M (bool * Clipboard.Status * option FetchedVia) :=
  let skip :=
    match DirectOptions.skipClipboard options with
    | Some b => b
    | None => false
    end in
  if negb skip then
    supported <- isClipboardWriteSupported ;;
    let clipboardStatus :=
      if supported then Clipboard.failed else Clipboard.not_supported in
    supportedAgain <- isClipboardWriteSupported ;;
    if supportedAgain then
      try_catch
        (prepared <-
           match DirectOptions.file options with
           | Some f => ret f
           | None =>
               fileFromUrl
                 (DirectOptions.imageUrl options)
                 (DirectOptions.filename options)
                 (Some {| allowNextImageOptimizerFallback := Some true |})
           end ;;
         clipboardOk <- tryWriteImageToClipboard prepared ;;
         ret (clipboardOk,
              if clipboardOk then Clipboard.copied else Clipboard.failed,
              __fetchedVia prepared))
        (fun _ => ret (false, Clipboard.failed, None))
    else ret (false, clipboardStatus, None)
  else ret (false, Clipboard.skipped, None).

Definition deepLinkFor (options : DirectOptions.t) : string :=
  let target :=
    match DirectOptions.target options with
    | Some t => t
    | None => DirectOptions.story_camera
    end in
  match target with
  | DirectOptions.story_camera => "instagram://story-camera"
  | DirectOptions.app => "instagram://app"
  end.

Definition shareImageToInstagramDirect (options : DirectOptions.t)
  : M ShareResult :=
  nib <- notInBrowser ;;
  if nib then ret (ShareFail instagram Reason.not_in_browser None)
  else
    let deepLink := deepLinkFor options in
    locals <- directClipboardStep options ;;
    let '(clipboardOk, clipboardStatus, fetchedVia) := locals in
    deepLinkOpened <- tryOpenDeepLink deepLink ;;
    if negb deepLinkOpened
    then ret (ShareFail instagram Reason.not_supported None)
    else
      ret (ShareOk instagram
             (if clipboardOk then deep_link_clipboard else deep_link)
             (Some {| clipboard := clipboardStatus;
                      deepLinkOpened := Some deepLinkOpened;
                      fetchedVia := fetchedVia |})).

(* ------------------------------------------------------------------ *)
(** ** Sample browsers *)

Module Sample.

Definition securityError : JsVal := Js.newError "SecurityError" "blocked".
Definition abortError : JsVal := Js.newError "AbortError" "Share canceled".
Definition notAllowed : JsVal := Js.newError "NotAllowedError" "denied".

Definition pngBlob : Blob :=
  {| blob_type := "image/png"; blob_bytes := [x89; x50; x4e; x47] |}.

Definition cdnUrl : string := "https://cdn.example/a.png".
Definition pageOrigin : string := "https://app.example".
Definition optimizerUrl : string :=
  "https://app.example/_next/image?url=https%3A%2F%2Fcdn.example%2Fa.png&w=1080&q=90".

Definition okResponse (b : Blob) : Response :=
  {| response_ok := true; response_blob := fun _ => Ret b |}.

(** The CDN refuses cross-origin reads; the page's optimizer answers. *)
Definition corsBlockedFetch : Trace -> string -> Outcome (option Response) :=
  fun _ url =>
    if String.eqb url optimizerUrl then Ret (Some (okResponse pngBlob))
    else Throw (Js.TypeError "Failed to fetch").

Definition deadFetch : Trace -> string -> Outcome (option Response) :=
  fun _ _ => Throw (Js.TypeError "Failed to fetch").

(** The CDN allows cross-origin reads. *)
Definition openFetch : Trace -> string -> Outcome (option Response) :=
  fun _ _ => Ret (Some (okResponse pngBlob)).

Definition sharedFile : File :=
  {| file_bytes := [x89; x50; x4e; x47];
     file_name := "shared-image.png";
     file_type := "image/png";
     file_lastModified := 1765800000000;
     __fetchedVia := Some direct |}.

Definition goodWindow : Window :=
  {| window_location :=
       {| location_origin := TupleOrigin pageOrigin;
          location_assign := fun _ _ => Ret tt |};
     window_open := fun _ _ _ => Ret tt |}.

(** Neither navigation primitive accepts the custom scheme. *)
Definition lockedWindow : Window :=
  {| window_location :=
       {| location_origin := TupleOrigin pageOrigin;
          location_assign := fun _ _ => Throw securityError |};
     window_open := fun _ _ _ => Throw securityError |}.

Definition bareNavigator : Navigator :=
  {| navigator_share := Absent;
     navigator_canShare := Absent;
     navigator_clipboard := None |}.

Definition fullNavigator (shareOutcome : Outcome unit)
    (writeOutcome : Outcome unit) : Navigator :=
  {| navigator_share := Callable (fun _ _ => shareOutcome);
     navigator_canShare := Callable (fun _ _ => Ret (VBool true));
     navigator_clipboard :=
       Some {| clipboard_write := Callable (fun _ _ _ => writeOutcome) |} |}.

Definition browser (w : Window) (n : Navigator)
    (f : Trace -> string -> Outcome (option Response)) : Env :=
  {| env_window := Some w;
     env_navigator := Some n;
     env_ClipboardItem := Some (fun _ _ _ => Ret tt);
     env_fetch := Some f;
     env_now := fun _ => 1765800000000%Z |}.

(** A desktop browser without Web Share and without clipboard images. *)
Definition legacyBrowser : Env :=
  {| env_window := Some goodWindow;
     env_navigator := Some bareNavigator;
     env_ClipboardItem := None;
     env_fetch := Some corsBlockedFetch;
     env_now := fun _ => 1765800000000%Z |}.

(** Every collaborator throws. *)
Definition hostileNavigator : Navigator :=
  {| navigator_share := Callable (fun _ _ => Throw notAllowed);
     navigator_canShare := Callable (fun _ _ => Throw securityError);
     navigator_clipboard :=
       Some {| clipboard_write := Callable (fun _ _ _ => Throw notAllowed) |} |}.

Definition hostileBrowser : Env :=
  {| env_window := Some lockedWindow;
     env_navigator := Some hostileNavigator;
     env_ClipboardItem := Some (fun _ _ _ => Throw (Js.TypeError "Illegal constructor"));
     env_fetch := Some deadFetch;
     env_now := fun _ => 1765800000000%Z |}.

Definition imagePayload : SharePayload :=
  {| kind := "image"; imageUrl := cdnUrl; filename := None;
     title := Some "Share"; text := None |}.

Definition directOptions (skip : option bool) : DirectOptions.t :=
  {| DirectOptions.imageUrl := cdnUrl;
     DirectOptions.filename := None;
     DirectOptions.title := None;
     DirectOptions.text := None;
     DirectOptions.file := None;
     DirectOptions.target := None;
     DirectOptions.skipClipboard := skip |}.

End Sample.

(* ------------------------------------------------------------------ *)
(** ** Vocabulary of the statements *)

(** The calls a computation added to the trace. *)
Definition extends (t t' : Trace) (evs : list Event) : Prop :=
  t' = (t ++ evs)%list.

(** What one [tryFetchBlob url] may add to the trace. *)
Definition oneFetch (url : string) (evs : list Event) : Prop :=
  evs = [] \/ evs = [EvFetch url] \/ evs = [EvFetch url; EvResponseBlob url].

(** The optimizer URL: the page origin, the path [/_next/image], and the
    query [url=<remote, form-encoded>&w=1080&q=90]. *)
Definition nextImageUrl (origin remoteUrl : string) : string :=
  origin ++ "/_next/image?url=" ++ formEncode remoteUrl ++ "&w=1080&q=90".

Definition fallbackAllowed : option FileFromUrlOptions :=
  Some {| allowNextImageOptimizerFallback := Some true |}.

(** The media type named by a content-type value: lower-cased, without
    parameters, without surrounding white space. *)
Definition mediaTypeOf (contentType : string) : string :=
  JsString.trim (JsString.splitHead ";" (JsString.toLowerCase contentType)).

(** The extension table, as the specification words it. *)
Inductive ExtensionOf : string -> string -> Prop :=
| ext_png : ExtensionOf "image/png" ".png"
| ext_jpeg : ExtensionOf "image/jpeg" ".jpg"
| ext_webp : ExtensionOf "image/webp" ".webp"
| ext_gif : ExtensionOf "image/gif" ".gif"
| ext_none mediaType :
    mediaType <> "image/png" -> mediaType <> "image/jpeg" ->
    mediaType <> "image/webp" -> mediaType <> "image/gif" ->
    ExtensionOf mediaType "".

(** The safe name, as the specification words it: the trimmed file name
    when it is not empty, otherwise [shared-image] and the extension. *)
Inductive SafeNameOf (contentType : string) : option string -> string -> Prop :=
| safe_given f :
    JsString.trim f <> "" ->
    SafeNameOf contentType (Some f) (JsString.trim f)
| safe_blank f ext :
    JsString.trim f = "" ->
    ExtensionOf (mediaTypeOf contentType) ext ->
    SafeNameOf contentType (Some f) ("shared-image" ++ ext)
| safe_missing ext :
    ExtensionOf (mediaTypeOf contentType) ext ->
    SafeNameOf contentType None ("shared-image" ++ ext).

(** [navigator.clipboard] is an object whose [write] is a function. *)
Definition HasClipboardWrite (n : Navigator) : Prop :=
  exists c wr, navigator_clipboard n = Some c /\ clipboard_write c = Callable wr.

(** Image clipboard writes are not available: no [clipboard.write]
    function, or no [ClipboardItem] constructor. *)
Definition ClipboardWriteAbsent (env : Env) (n : Navigator) : Prop :=
  ~ HasClipboardWrite n \/ env_ClipboardItem env = None.

(** [options.skipClipboard] read as a condition: a missing flag is falsy. *)
Definition skipped (options : DirectOptions.t) : bool :=
  match DirectOptions.skipClipboard options with
  | Some b => b
  | None => false
  end.

(** What one [tryOpenDeepLink url] adds to the trace in a page. *)
Definition deepLinkCalls (url : string) (evs : list Event) : Prop :=
  evs = [EvLocationAssign url] \/
  evs = [EvLocationAssign url; EvWindowOpen url "_blank"].

(** An error object (not a function, not [null]) whose [name] is the
    string "AbortError". *)
Definition NamedAbortError (e : JsVal) : Prop :=
  exists props, e = VObject props /\ Js.lookup "name" props = VString "AbortError".

(** The reasons the Web Share strategy can give. *)
Definition webShareReason (r : Reason.t) : Prop :=
  r = Reason.not_in_browser \/ r = Reason.not_supported \/
  r = Reason.fetch_failed \/ r = Reason.user_cancelled \/ r = Reason.unknown.

(** The reasons the direct strategy can give. *)
Definition directReason (r : Reason.t) : Prop :=
  r = Reason.not_in_browser \/ r = Reason.not_supported.

(* ------------------------------------------------------------------ *)
(** ** The page that calls the module: [app/page.tsx] *)

Module Home.

Definition shownImageUrl : string :=
  "https://d8j0ntlcm91z4.cloudfront.net/user_30yFYHi31EXeFFWTDMAYMBjpYRY/4a823ae4-21e7-42c6-b2ca-115ccb9733ad.png".

(** A reason inside a template literal: reasons are string literals. *)
Definition reasonText (r : Reason.t) : string :=
  match r with
  | Reason.not_in_browser => "not_in_browser"
  | Reason.not_supported => "not_supported"
  | Reason.clipboard_not_supported => "clipboard_not_supported"
  | Reason.fetch_failed => "fetch_failed"
  | Reason.user_cancelled => "user_cancelled"
  | Reason.unknown => "unknown"
  end.

Definition clipboardNotice : string :=
  "Your browser doesn't support copying images to clipboard. We'll try the system share sheet instead.".

Definition copiedNotice : string :=
  "Image copied. In Instagram (Story), tap 'Aa' and paste, or use the paste sticker prompt if it appears.".

Definition sharingUnsupported : string :=
  "Sharing is not supported in this browser. Try on mobile Safari or Chrome.".

Definition nativeUnsupported : string :=
  "Native share is not supported in this browser. Try on mobile Safari or Chrome.".

Definition directRequest (preparedFile : option File) : DirectOptions.t :=
  {| DirectOptions.imageUrl := shownImageUrl;
     DirectOptions.filename := Some "social-sharing.png";
     DirectOptions.title := Some "Share image";
     DirectOptions.text := None;
     DirectOptions.file := preparedFile;
     DirectOptions.target := None;
     DirectOptions.skipClipboard := None |}.

Definition nativeRequest : SharePayload :=
  {| kind := "image";
     imageUrl := shownImageUrl;
     filename := Some "social-sharing.png";
     title := Some "Share image";
     text := None |}.

(** The click handler [onShare].  [preparedFile] is the component state
    the handler closes over.  Each [alert(message)] is modelled by its
    message: the handler's value is the list of the messages shown, in
    order. *)
Definition onShare (preparedFile : option File) : M (list string) :=
  result <- shareImageToInstagramDirect (directRequest preparedFile) ;;
  let alerts :=
    match result with
    | ShareOk _ _ (Some details) =>
        match clipboard details with
        | Clipboard.not_supported => [clipboardNotice]
        | _ => []
        end
    | _ => []
    end in
  result <-
    match result with
    | ShareFail _ Reason.not_supported _ => shareImageToInstagram nativeRequest
    | _ => ret result
    end ;;
  match result with
  | ShareOk _ deep_link_clipboard _ => ret (alerts ++ [copiedNotice])%list
  | ShareOk _ _ _ => ret alerts
  | ShareFail _ Reason.user_cancelled _ => ret alerts
  | ShareFail _ Reason.not_supported _ => ret (alerts ++ [sharingUnsupported])%list
  | ShareFail _ reason _ =>
      ret (alerts ++ [("Share failed: " ++ reasonText reason)%string])%list
  end.

(** The click handler [onNativeShare]. *)
Definition onNativeShare : M (list string) :=
  result <- shareImageToInstagram nativeRequest ;;
  match result with
  | ShareOk _ _ _ => ret []
  | ShareFail _ Reason.user_cancelled _ => ret []
  | ShareFail _ Reason.not_supported _ => ret [nativeUnsupported]
  | ShareFail _ reason _ => ret ["Native share failed: " ++ reasonText reason]
  end.

End Home.

(* ------------------------------------------------------------------ *)
(** ** Reading a form-encoded value back *)






(* ------------------------------------------------------------------ *)
(** ** More vocabulary *)

(** [options?.allowNextImageOptimizerFallback] read as a condition. *)
Definition fallbackRequested (options : option FileFromUrlOptions) : bool :=
  match options with
  | Some o =>
      match allowNextImageOptimizerFallback o with
      | Some b => b
      | None => false
      end
  | None => false
  end.

(** [navigator.canShare] exists, is called, and answers exactly [false]. *)
Definition CanShareRefuses (n : Navigator) (file : File) (t : Trace) : Prop :=
  exists canShare_fn,
    navigator_canShare n = Callable canShare_fn /\
    canShare_fn t [file] = Ret (VBool false).

(** What the [canShare] probe adds to the trace. *)
Definition canShareCalls (n : Navigator) (file : File) : list Event :=
  match navigator_canShare n with
  | Callable _ => [EvCanShare [file]]
  | _ => []
  end.

Definition isFetchEvent (ev : Event) : bool :=
  match ev with
  | EvFetch _ | EvResponseBlob _ | EvNewURL _ _ => true
  | _ => false
  end.

Definition isShareEvent (ev : Event) : bool :=
  match ev with
  | EvShare _ | EvCanShare _ => true
  | _ => false
  end.


(** A string that does not begin with white space. *)
Definition startsClean (s : string) : Prop :=
  match s with
  | EmptyString => True
  | String c _ => JsString.isWhiteSpace c = false
  end.

(** The file the clipboard step works on: the preloaded one, or a fetch
    with the optimizer fallback. *)
Definition directPrepared (options : DirectOptions.t) : M File :=
  match DirectOptions.file options with
  | Some f => ret f
  | None =>
      fileFromUrl (DirectOptions.imageUrl options)
                  (DirectOptions.filename options) fallbackAllowed
  end.

(** Browsers for the examples of the later sections. *)
Module Scenario.

(** Server-side rendering: no [window], no [navigator]. *)
Definition server : Env :=
  {| env_window := None;
     env_navigator := None;
     env_ClipboardItem := None;
     env_fetch := Some Sample.deadFetch;
     env_now := fun _ => 1765800000000%Z |}.

Definition sandboxedWindow : Window :=
  {| window_location :=
       {| location_origin := OpaqueOrigin;
          location_assign := fun _ _ => Ret tt |};
     window_open := fun _ _ _ => Ret tt |}.

Definition navigatorWith
    (canShare : Slot (Trace -> list File -> Outcome JsVal))
    (shareOutcome : Outcome unit) : Navigator :=
  {| navigator_share := Callable (fun _ _ => shareOutcome);
     navigator_canShare := canShare;
     navigator_clipboard :=
       Some {| clipboard_write := Callable (fun _ _ _ => Ret tt) |} |}.

Definition videoPayload : SharePayload :=
  {| kind := "video"; imageUrl := Sample.cdnUrl; filename := None;
     title := None; text := None |}.

Definition preloaded : File :=
  {| file_bytes := [x89; x50; x4e; x47];
     file_name := "social-sharing.png";
     file_type := "image/png";
     file_lastModified := 1765800000000;
     __fetchedVia := Some next_image_optimizer |}.

Definition withFile (f : File) : DirectOptions.t :=
  {| DirectOptions.imageUrl := Sample.cdnUrl;
     DirectOptions.filename := None;
     DirectOptions.title := None;
     DirectOptions.text := None;
     DirectOptions.file := Some f;
     DirectOptions.target := Some DirectOptions.app;
     DirectOptions.skipClipboard := None |}.

End Scenario.

(* ------------------------------------------------------------------ *)
(** ** Running computations *)

Ltac js_unfold :=
  unfold run, bind, try_catch, ret, throw, call, ask in *.

Ltac js_run :=
  js_unfold; cbn beta iota zeta delta [fst snd] in *.

(** Puts [run] back around a computation applied to its arguments. *)
Ltac js_refold :=
  lazymatch goal with
  | |- ?m ?e ?tr = ?rhs => change (run m e tr = rhs)
  end.

(** Closes a goal [exists r t', (Ret v, u) = (Ret r, t') /\ P r]. *)
Ltac js_done :=
  do 2 eexists; split; [reflexivity | cbn; auto 6].

Section Computations.

Context {A : Type}.

Lemma run_ret (a : A) env t : run (ret a) env t = (Ret a, t).
Proof. reflexivity. Qed.

Lemma run_bind_ret {B} (m : M A) (k : A -> M B) env t a t' :
  run m env t = (Ret a, t') ->
  run (bind m k) env t = run (k a) env t'.
Proof. js_unfold. intros ->. reflexivity. Qed.

Lemma run_bind_throw {B} (m : M A) (k : A -> M B) env t e t' :
  run m env t = (Throw e, t') ->
  run (bind m k) env t = (Throw e, t').
Proof. js_unfold. intros ->. reflexivity. Qed.

Lemma run_try_ret (m : M A) h env t a t' :
  run m env t = (Ret a, t') ->
  run (try_catch m h) env t = (Ret a, t').
Proof. js_unfold. intros ->. reflexivity. Qed.

Lemma run_try_throw (m : M A) h env t e t' :
  run m env t = (Throw e, t') ->
  run (try_catch m h) env t = run (h e) env t'.
Proof. js_unfold. intros ->. reflexivity. Qed.

(** A [try] whose handler only returns a value cannot throw. *)
Lemma try_catch_returns (m : M A) (h : JsVal -> A) env t :
  exists a t', run (try_catch m (fun e => ret (h e))) env t = (Ret a, t').
Proof.
  js_unfold. destruct (m env t) as [[a | e] t']; eauto.
Qed.

End Computations.

Lemma extends_refl t : extends t t [].
Proof. unfold extends. now rewrite app_nil_r. Qed.

Lemma extends_trans t t1 t2 e1 e2 :
  extends t t1 e1 -> extends t1 t2 e2 -> extends t t2 (e1 ++ e2)%list.
Proof. unfold extends. intros -> ->. now rewrite app_assoc. Qed.

(* ------------------------------------------------------------------ *)
(** ** The deep-link opener *)

Section DeepLink.

Variables (env : Env) (t : Trace) (url : string).

Lemma tryOpenDeepLink_no_window :
  env_window env = None ->
  run (tryOpenDeepLink url) env t = (Ret false, t).
Proof.
  intros H. unfold tryOpenDeepLink, location_assign_call, window_open_call,
    global_window. js_unfold. now rewrite H.
Qed.

Lemma tryOpenDeepLink_assign_ok w :
  env_window env = Some w ->
  location_assign (window_location w) t url = Ret tt ->
  run (tryOpenDeepLink url) env t = (Ret true, (t ++ [EvLocationAssign url])%list).
Proof.
  intros H Ha. unfold tryOpenDeepLink, location_assign_call, global_window.
  js_unfold. now rewrite H, Ha.
Qed.

Lemma tryOpenDeepLink_assign_throws w e :
  env_window env = Some w ->
  location_assign (window_location w) t url = Throw e ->
  run (tryOpenDeepLink url) env t =
  (Ret (match window_open w (t ++ [EvLocationAssign url])%list url "_blank" with
        | Ret _ => true
        | Throw _ => false
        end),
   (t ++ [EvLocationAssign url; EvWindowOpen url "_blank"])%list).
Proof.
  intros H Ha. unfold tryOpenDeepLink, location_assign_call, window_open_call,
    global_window. js_unfold. rewrite H, Ha.
  replace (t ++ [EvLocationAssign url; EvWindowOpen url "_blank"])%list
    with ((t ++ [EvLocationAssign url]) ++ [EvWindowOpen url "_blank"])%list
    by now rewrite <- app_assoc.
  now destruct (window_open w _ url "_blank").
Qed.

Lemma tryOpenDeepLink_returns :
  exists b t', run (tryOpenDeepLink url) env t = (Ret b, t').
Proof.
  destruct (env_window env) as [w |] eqn:H.
  - destruct (location_assign (window_location w) t url) as [[] | e] eqn:Ha.
    + rewrite (tryOpenDeepLink_assign_ok w H Ha); eauto.
    + rewrite (tryOpenDeepLink_assign_throws w e H Ha); eauto.
  - rewrite (tryOpenDeepLink_no_window H); eauto.
Qed.

End DeepLink.

(** C8.  For every URL and every behaviour of the two navigation
    primitives, [tryOpenDeepLink] returns a boolean and never throws.  It
    calls [window.location.assign(url)] first; when that call returns, the
    result is [true] and [window.open] is not called; when it throws,
    [window.open(url, "_blank")] is called next and the result is [true]
    when it returns and [false] when it throws too.  So [false] is returned
    exactly when both attempts throw. *)
Theorem tryOpenDeepLink_spec (env : Env) (t : Trace) (url : string) :
  (exists b t', run (tryOpenDeepLink url) env t = (Ret b, t')) /\
  forall w, env_window env = Some w ->
    let assign := location_assign (window_location w) t url in
    let t1 := (t ++ [EvLocationAssign url])%list in
    let open := window_open w t1 url "_blank" in
    let t2 := (t ++ [EvLocationAssign url; EvWindowOpen url "_blank"])%list in
    (assign = Ret tt -> run (tryOpenDeepLink url) env t = (Ret true, t1)) /\
    (forall e, assign = Throw e -> open = Ret tt ->
               run (tryOpenDeepLink url) env t = (Ret true, t2)) /\
    (forall e e', assign = Throw e -> open = Throw e' ->
                  run (tryOpenDeepLink url) env t = (Ret false, t2)) /\
    (forall t', run (tryOpenDeepLink url) env t = (Ret false, t') <->
                (exists e e', assign = Throw e /\ open = Throw e') /\ t' = t2).
Proof.
  split; [apply tryOpenDeepLink_returns |].
  intros w H assign t1 open t2.
  split; [intros Ha; now apply tryOpenDeepLink_assign_ok with w |].
  split; [intros e Ha Ho;
          rewrite (tryOpenDeepLink_assign_throws env t url w e H Ha);
          fold t1 open; now rewrite Ho |].
  split; [intros e e' Ha Ho;
          rewrite (tryOpenDeepLink_assign_throws env t url w e H Ha);
          fold t1 open; now rewrite Ho |].
  intros t'. split.
  - intros Hr. destruct assign as [[] | e] eqn:Ha.
    + rewrite (tryOpenDeepLink_assign_ok env t url w H Ha) in Hr. discriminate.
    + rewrite (tryOpenDeepLink_assign_throws env t url w e H Ha) in Hr.
      fold t1 open t2 in Hr. destruct open as [[] | e'] eqn:Ho.
      * discriminate.
      * inversion Hr. split; [exists e, e'; auto | reflexivity].
  - intros [(e & e' & Ha & Ho) ->].
    rewrite (tryOpenDeepLink_assign_throws env t url w e H Ha).
    fold t1 open. now rewrite Ho.
Qed.

Lemma tryOpenDeepLink_spec_witness :
  run (tryOpenDeepLink "instagram://app") Sample.legacyBrowser [] =
    (Ret true, [EvLocationAssign "instagram://app"]) /\
  run (tryOpenDeepLink "instagram://app")
      (Sample.browser Sample.lockedWindow Sample.bareNavigator Sample.deadFetch) [] =
    (Ret false, [EvLocationAssign "instagram://app";
                 EvWindowOpen "instagram://app" "_blank"]).
Proof.
  split.
  - apply (proj2 (tryOpenDeepLink_spec Sample.legacyBrowser [] "instagram://app")
             Sample.goodWindow eq_refl).
    reflexivity.
  - apply (proj2 (tryOpenDeepLink_spec
             (Sample.browser Sample.lockedWindow Sample.bareNavigator
                             Sample.deadFetch) [] "instagram://app")
             Sample.lockedWindow eq_refl)
      with (e := Sample.securityError) (e' := Sample.securityError);
      reflexivity.
Defined.

(* ------------------------------------------------------------------ *)
(** ** The image fetcher *)

(** [tryFetchBlob] never throws, and calls nothing but one [fetch] of its
    URL and the [blob()] of the response. *)
Lemma tryFetchBlob_returns env t url :
  exists ob t' evs,
    run (tryFetchBlob url) env t = (Ret ob, t') /\
    extends t t' evs /\ oneFetch url evs.
Proof.
  unfold tryFetchBlob, fetch_cors, oneFetch, extends. js_unfold.
  destruct (env_fetch env) as [f |].
  - destruct (f t url) as [[r |] | e].
    + destruct (response_ok r); cbn.
      * destruct (response_blob r _) as [b | e];
          do 3 eexists; (split; [reflexivity |]);
          rewrite <- app_assoc; cbn; eauto.
      * do 3 eexists; eauto.
    + do 3 eexists; eauto.
    + do 3 eexists; eauto.
  - exists None, t, []. rewrite app_nil_r. eauto.
Qed.

(** The direct fetch fails exactly when [fetch] is missing or rejects, when
    no response object comes back, when the response is not [ok], or when
    reading its body fails. *)
Lemma tryFetchBlob_fails_iff env t url :
  (exists t', run (tryFetchBlob url) env t = (Ret None, t')) <->
  match env_fetch env with
  | None => True
  | Some f =>
      match f t url with
      | Throw _ | Ret None => True
      | Ret (Some r) =>
          response_ok r = false \/
          exists e, response_blob r (t ++ [EvFetch url])%list = Throw e
      end
  end.
Proof.
  unfold tryFetchBlob, fetch_cors. js_unfold.
  destruct (env_fetch env) as [f |]; [| split; eauto].
  destruct (f t url) as [[r |] | e]; [| split; eauto | split; eauto].
  destruct (response_ok r); cbn.
  - destruct (response_blob r _) as [b | e].
    + split; [intros [t' H]; discriminate | intros [H | [e H]]; discriminate].
    + split; eauto.
  - split; eauto.
Qed.

Lemma tryFetchBlob_succeeds env t url f r b :
  env_fetch env = Some f ->
  f t url = Ret (Some r) ->
  response_ok r = true ->
  response_blob r (t ++ [EvFetch url])%list = Ret b ->
  run (tryFetchBlob url) env t =
  (Ret (Some b), (t ++ [EvFetch url; EvResponseBlob url])%list).
Proof.
  intros Hf Hr Hok Hb. unfold tryFetchBlob, fetch_cors. js_unfold.
  rewrite Hf, Hr, Hok. cbn. rewrite Hb. now rewrite <- app_assoc.
Qed.

Lemma fileFromBlob_run (b : Blob) filename via env t :
  run (fileFromBlob b filename via) env t =
  (Ret {| file_bytes := blob_bytes b;
          file_name := safeName filename (extensionFromContentType (blob_type b));
          file_type :=
            normalizeMediaType
              (JsString.orElse (blob_type b) "application/octet-stream");
          file_lastModified := env_now env t;
          __fetchedVia := Some via |}, t).
Proof.
  unfold fileFromBlob, Date_now, newFile. js_unfold. cbn.
  destruct (blob_type b); reflexivity.
Qed.

Lemma buildNextImageOptimizerUrl_run env t w origin remoteUrl :
  env_window env = Some w ->
  location_origin (window_location w) = TupleOrigin origin ->
  run (buildNextImageOptimizerUrl remoteUrl) env t =
  (Ret (nextImageUrl origin remoteUrl),
   (t ++ [EvNewURL "/_next/image" origin])%list).
Proof.
  intros Hw Ho. unfold buildNextImageOptimizerUrl, global_window, new_URL.
  js_unfold. rewrite Hw, Ho. reflexivity.
Qed.

(** With an opaque page origin the optimizer URL cannot be built. *)
Lemma buildNextImageOptimizerUrl_opaque env t w remoteUrl :
  env_window env = Some w ->
  location_origin (window_location w) = OpaqueOrigin ->
  run (buildNextImageOptimizerUrl remoteUrl) env t =
  (Throw (Js.TypeError "Invalid base URL"),
   (t ++ [EvNewURL "/_next/image" "null"])%list).
Proof.
  intros Hw Ho. unfold buildNextImageOptimizerUrl, global_window, new_URL.
  js_unfold. now rewrite Hw, Ho.
Qed.

Section FileFromUrl.

Variables (env : Env) (t : Trace) (imageUrl : string) (filename : option string).

Lemma fileFromUrl_direct options b t1 :
  run (tryFetchBlob imageUrl) env t = (Ret (Some b), t1) ->
  exists f,
    run (fileFromUrl imageUrl filename options) env t = (Ret f, t1) /\
    __fetchedVia f = Some direct /\
    file_bytes f = blob_bytes b /\
    file_name f = safeName filename (extensionFromContentType (blob_type b)).
Proof.
  intros H. unfold fileFromUrl.
  rewrite (run_bind_ret _ _ env t _ _ H), fileFromBlob_run.
  eexists; split; [reflexivity | cbn; auto].
Qed.

(** Without the fallback option a failed direct fetch is final. *)
Lemma fileFromUrl_no_fallback t1 :
  run (tryFetchBlob imageUrl) env t = (Ret None, t1) ->
  run (fileFromUrl imageUrl filename None) env t = (Throw failedToFetch, t1).
Proof.
  intros H. unfold fileFromUrl.
  rewrite (run_bind_ret _ _ env t _ _ H). reflexivity.
Qed.

Lemma fileFromUrl_fallback w origin t1 r t2 :
  env_window env = Some w ->
  location_origin (window_location w) = TupleOrigin origin ->
  run (tryFetchBlob imageUrl) env t = (Ret None, t1) ->
  run (tryFetchBlob (nextImageUrl origin imageUrl)) env
      (t1 ++ [EvNewURL "/_next/image" origin])%list = (Ret r, t2) ->
  run (fileFromUrl imageUrl filename fallbackAllowed) env t =
  match r with
  | Some b => run (fileFromBlob b filename next_image_optimizer) env t2
  | None => (Throw failedToFetch, t2)
  end.
Proof.
  intros Hw Ho H1 H2. unfold fileFromUrl.
  rewrite (run_bind_ret _ _ env t _ _ H1).
  unfold fallbackAllowed, allowNextImageOptimizerFallback.
  unfold run at 1, bind at 1, ask at 1. rewrite Hw. cbn [andb].
  js_refold.
  rewrite (run_bind_ret _ _ env t1 _ _
             (buildNextImageOptimizerUrl_run env t1 w origin imageUrl Hw Ho)).
  rewrite (run_bind_ret _ _ env _ _ _ H2).
  destruct r; reflexivity.
Qed.

(** [fileFromUrl] returns a file or throws; either way it terminates. *)
Lemma fileFromUrl_outcome options :
  exists o t', run (fileFromUrl imageUrl filename options) env t = (o, t').
Proof. eexists _, _. apply surjective_pairing. Qed.

End FileFromUrl.

(** C4.  Take any image URL, the optimizer fallback permitted, and a page
    with a window whose origin is [origin].  Suppose the direct fetch of
    the URL fails ([tryFetchBlob] yields [null]).  The optimizer URL
    [origin/_next/image?url=<the URL, form-encoded>&w=1080&q=90] is then
    built and fetched.  If that fetch yields a blob, [fileFromUrl] returns
    a file holding the blob's bytes, tagged [next_image_optimizer]; if it
    fails too, [fileFromUrl] throws its "Failed to fetch image" error. *)
Theorem fileFromUrl_optimizer_fallback
    (env : Env) (w : Window) (origin : string) (t t1 : Trace)
    (imageUrl : string) (filename : option string) :
  env_window env = Some w ->
  location_origin (window_location w) = TupleOrigin origin ->
  run (tryFetchBlob imageUrl) env t = (Ret None, t1) ->
  let t1' := (t1 ++ [EvNewURL "/_next/image" origin])%list in
  let viaNext := run (tryFetchBlob (nextImageUrl origin imageUrl)) env t1' in
  (forall b t2, viaNext = (Ret (Some b), t2) ->
     exists f,
       run (fileFromUrl imageUrl filename fallbackAllowed) env t = (Ret f, t2) /\
       __fetchedVia f = Some next_image_optimizer /\
       file_bytes f = blob_bytes b /\
       file_name f = safeName filename (extensionFromContentType (blob_type b)))
  /\
  (forall t2, viaNext = (Ret None, t2) ->
     run (fileFromUrl imageUrl filename fallbackAllowed) env t =
     (Throw failedToFetch, t2))
  /\
  (exists r t2, viaNext = (Ret r, t2)).
Proof.
  intros Hw Ho H1 t1' viaNext. repeat split.
  - intros b t2 H2.
    rewrite (fileFromUrl_fallback env t imageUrl filename w origin t1
               (Some b) t2 Hw Ho H1 H2), fileFromBlob_run.
    eexists; split; [reflexivity | cbn; auto].
  - intros t2 H2.
    now rewrite (fileFromUrl_fallback env t imageUrl filename w origin t1
                   None t2 Hw Ho H1 H2).
  - destruct (tryFetchBlob_returns env t1' (nextImageUrl origin imageUrl))
      as (r & t2 & _ & H & _). eauto.
Qed.

Lemma fileFromUrl_optimizer_fallback_witness :
  nextImageUrl Sample.pageOrigin Sample.cdnUrl = Sample.optimizerUrl /\
  (exists f,
     run (fileFromUrl Sample.cdnUrl None fallbackAllowed)
         (Sample.browser Sample.goodWindow Sample.bareNavigator
                         Sample.corsBlockedFetch) [] =
     (Ret f, [EvFetch Sample.cdnUrl;
              EvNewURL "/_next/image" Sample.pageOrigin;
              EvFetch Sample.optimizerUrl;
              EvResponseBlob Sample.optimizerUrl]) /\
     __fetchedVia f = Some next_image_optimizer /\
     file_name f = "shared-image.png") /\
  run (fileFromUrl Sample.cdnUrl None fallbackAllowed)
      (Sample.browser Sample.goodWindow Sample.bareNavigator Sample.deadFetch) [] =
  (Throw failedToFetch,
   [EvFetch Sample.cdnUrl;
    EvNewURL "/_next/image" Sample.pageOrigin;
    EvFetch Sample.optimizerUrl]).
Proof.
  split; [reflexivity | split].
  - destruct (proj1 (fileFromUrl_optimizer_fallback
                       (Sample.browser Sample.goodWindow Sample.bareNavigator
                                       Sample.corsBlockedFetch)
                       Sample.goodWindow Sample.pageOrigin []
                       [EvFetch Sample.cdnUrl] Sample.cdnUrl None
                       eq_refl eq_refl eq_refl)
                Sample.pngBlob _ eq_refl) as (f & Hrun & Hvia & _ & Hname).
    exists f. repeat split; assumption.
  - apply (fileFromUrl_optimizer_fallback
             (Sample.browser Sample.goodWindow Sample.bareNavigator
                             Sample.deadFetch)
             Sample.goodWindow Sample.pageOrigin []
             [EvFetch Sample.cdnUrl] Sample.cdnUrl None
             eq_refl eq_refl eq_refl).
    reflexivity.
Defined.

(* ------------------------------------------------------------------ *)
(** ** Safe file names *)

Lemma ExtensionOf_functional m e1 e2 :
  ExtensionOf m e1 -> ExtensionOf m e2 -> e1 = e2.
Proof. intros H1 H2; inversion H1; inversion H2; subst; congruence. Qed.

Lemma SafeNameOf_functional ct fn n1 n2 :
  SafeNameOf ct fn n1 -> SafeNameOf ct fn n2 -> n1 = n2.
Proof.
  intros H1 H2; inversion H1; inversion H2; subst; try congruence.
  - match goal with
    | Ha : ExtensionOf _ ?a, Hb : ExtensionOf _ ?b |- _ =>
        now rewrite (ExtensionOf_functional _ _ _ Ha Hb)
    end.
  - match goal with
    | Ha : ExtensionOf _ ?a, Hb : ExtensionOf _ ?b |- _ =>
        now rewrite (ExtensionOf_functional _ _ _ Ha Hb)
    end.
Qed.

Lemma extensionFromContentType_table contentType :
  ExtensionOf (mediaTypeOf contentType) (extensionFromContentType contentType).
Proof.
  unfold extensionFromContentType. fold (mediaTypeOf contentType).
  destruct (String.eqb_spec (mediaTypeOf contentType) "image/png") as [-> | H1];
    [constructor |].
  destruct (String.eqb_spec (mediaTypeOf contentType) "image/jpeg") as [-> | H2];
    [constructor |].
  destruct (String.eqb_spec (mediaTypeOf contentType) "image/webp") as [-> | H3];
    [constructor |].
  destruct (String.eqb_spec (mediaTypeOf contentType) "image/gif") as [-> | H4];
    [constructor |].
  now constructor.
Qed.

Lemma safeName_derivation contentType filename :
  SafeNameOf contentType filename
             (safeName filename (extensionFromContentType contentType)).
Proof.
  destruct filename as [f |]; cbn.
  - unfold JsString.orElse.
    destruct (JsString.trim f) eqn:E; cbn.
    + apply safe_blank; [assumption | apply extensionFromContentType_table].
    + rewrite <- E. apply safe_given. rewrite E. discriminate.
  - apply safe_missing, extensionFromContentType_table.
Qed.

(** C7.  The name [fileFromBlob] gives a file is a function of the blob's
    content type and of the optional file name alone: it does not depend
    on the bytes, on the fetch path, on the clock or on the calls made
    before, so identical inputs yield identical names.  The name is the
    trimmed file name when that is not empty, and otherwise [shared-image]
    followed by the extension of the content type's media type: [.png] for
    image/png, [.jpg] for image/jpeg, [.webp] for image/webp, [.gif] for
    image/gif, nothing for any other.  Content type image/png without a
    file name gives [shared-image.png]. *)
Theorem safe_filename_derivation :
  (forall (b : Blob) (filename : option string) via env t,
     exists f,
       run (fileFromBlob b filename via) env t = (Ret f, t) /\
       SafeNameOf (blob_type b) filename (file_name f)) /\
  (forall b1 b2 filename via1 via2 env1 env2 t1 t2 f1 f2 t1' t2',
     blob_type b1 = blob_type b2 ->
     run (fileFromBlob b1 filename via1) env1 t1 = (Ret f1, t1') ->
     run (fileFromBlob b2 filename via2) env2 t2 = (Ret f2, t2') ->
     file_name f1 = file_name f2) /\
  (extensionFromContentType "image/png" = ".png" /\
   extensionFromContentType "image/jpeg" = ".jpg" /\
   extensionFromContentType "image/webp" = ".webp" /\
   extensionFromContentType "image/gif" = ".gif") /\
  (forall contentType,
     mediaTypeOf contentType <> "image/png" ->
     mediaTypeOf contentType <> "image/jpeg" ->
     mediaTypeOf contentType <> "image/webp" ->
     mediaTypeOf contentType <> "image/gif" ->
     extensionFromContentType contentType = "") /\
  (forall bytes via env t,
     exists f,
       run (fileFromBlob {| blob_type := "image/png"; blob_bytes := bytes |}
                         None via) env t = (Ret f, t) /\
       file_name f = "shared-image.png").
Proof.
  split; [| split; [| split; [| split]]].
  - intros b filename via env t. rewrite fileFromBlob_run.
    eexists; split; [reflexivity | apply safeName_derivation].
  - intros b1 b2 filename via1 via2 env1 env2 t1 t2 f1 f2 t1' t2' Hty H1 H2.
    rewrite fileFromBlob_run in H1, H2.
    inversion H1; inversion H2; subst; cbn. now rewrite Hty.
  - repeat split; reflexivity.
  - intros ct H1 H2 H3 H4.
    pose proof (extensionFromContentType_table ct) as H.
    inversion H; congruence.
  - intros bytes via env t. rewrite fileFromBlob_run.
    eexists; split; reflexivity.
Qed.

Lemma safe_filename_derivation_witness :
  extensionFromContentType "text/html; charset=utf-8" = "" /\
  file_name
    {| file_bytes := []; file_name := "shared-image.jpg";
       file_type := "image/jpeg"; file_lastModified := 1765800000000;
       __fetchedVia := Some direct |} =
  file_name
    {| file_bytes := [x00]; file_name := "shared-image.jpg";
       file_type := "image/jpeg"; file_lastModified := 1765800000000;
       __fetchedVia := Some next_image_optimizer |}.
Proof.
  split.
  - apply (proj1 (proj2 (proj2 (proj2 safe_filename_derivation))));
      vm_compute; discriminate.
  - apply (proj1 (proj2 safe_filename_derivation)
             {| blob_type := "image/jpeg"; blob_bytes := [] |}
             {| blob_type := "image/jpeg"; blob_bytes := [x00] |}
             (Some "  ") direct next_image_optimizer
             Sample.legacyBrowser
             (Sample.browser Sample.goodWindow Sample.bareNavigator
                             Sample.deadFetch)
             [] [EvFetch "x"] _ _ [] [EvFetch "x"] eq_refl).
    + vm_compute. reflexivity.
    + vm_compute. reflexivity.
Defined.

(* ------------------------------------------------------------------ *)
(** ** The clipboard writer *)

Section ClipboardProbe.

Variables (env : Env) (n : Navigator) (t : Trace).
Hypothesis Hnav : env_navigator env = Some n.

Lemma isClipboardWriteSupported_returns :
  exists b, run isClipboardWriteSupported env t = (Ret b, t).
Proof.
  unfold isClipboardWriteSupported, global_navigator. js_unfold. rewrite Hnav.
  destruct (navigator_clipboard n) as [c |]; [| eauto].
  destruct (clipboard_write c); eauto.
Qed.

Lemma isClipboardWriteSupported_absent :
  ClipboardWriteAbsent env n ->
  run isClipboardWriteSupported env t = (Ret false, t).
Proof.
  intros Habs.
  unfold isClipboardWriteSupported, global_navigator. js_unfold. rewrite Hnav.
  destruct (navigator_clipboard n) as [c |] eqn:Hc; [| reflexivity].
  destruct (clipboard_write c) as [| | | wr] eqn:Hwr; try reflexivity.
  destruct Habs as [Hno | ->]; [| reflexivity].
  exfalso. apply Hno. now exists c, wr.
Qed.

Lemma isClipboardWriteSupported_present c wr k :
  navigator_clipboard n = Some c ->
  clipboard_write c = Callable wr ->
  env_ClipboardItem env = Some k ->
  run isClipboardWriteSupported env t = (Ret true, t).
Proof.
  intros Hc Hwr Hk.
  unfold isClipboardWriteSupported, global_navigator. js_unfold.
  now rewrite Hnav, Hc, Hwr, Hk.
Qed.

Lemma tryWriteImageToClipboard_run c wr k file :
  navigator_clipboard n = Some c ->
  clipboard_write c = Callable wr ->
  env_ClipboardItem env = Some k ->
  let mime := clipboardMime file in
  let blob := sliceAll file mime in
  let t1 := (t ++ [EvNewClipboardItem mime blob])%list in
  let t2 := (t ++ [EvNewClipboardItem mime blob; EvClipboardWrite mime blob])%list in
  run (tryWriteImageToClipboard file) env t =
  match k t mime blob with
  | Throw _ => (Ret false, t1)
  | Ret _ =>
      match wr t1 mime blob with
      | Throw _ => (Ret false, t2)
      | Ret _ => (Ret true, t2)
      end
  end.
Proof.
  intros Hc Hwr Hk mime blob t1 t2.
  unfold tryWriteImageToClipboard, global_navigator. js_unfold.
  rewrite Hnav, Hc, Hwr, Hk. fold mime blob t1.
  destruct (k t mime blob); [| reflexivity].
  replace t2 with (t1 ++ [EvClipboardWrite mime blob])%list
    by (unfold t1, t2; now rewrite <- app_assoc).
  destruct (wr t1 mime blob); reflexivity.
Qed.

(** [tryWriteImageToClipboard] turns every failure into [false]. *)
Lemma tryWriteImageToClipboard_returns file :
  exists b t', run (tryWriteImageToClipboard file) env t = (Ret b, t').
Proof.
  destruct (navigator_clipboard n) as [c |] eqn:Hc.
  - destruct (clipboard_write c) as [| | | wr] eqn:Hwr;
      try solve [unfold tryWriteImageToClipboard, global_navigator; js_unfold;
                 rewrite Hnav, Hc, Hwr; eauto].
    destruct (env_ClipboardItem env) as [k |] eqn:Hk.
    + rewrite (tryWriteImageToClipboard_run c wr k file Hc Hwr Hk).
      destruct (k t _ _); [| eauto]. destruct (wr _ _ _); eauto.
    + unfold tryWriteImageToClipboard, global_navigator; js_unfold.
      rewrite Hnav, Hc, Hwr, Hk; eauto.
  - unfold tryWriteImageToClipboard, global_navigator; js_unfold.
    rewrite Hnav, Hc; eauto.
Qed.

End ClipboardProbe.

(* ------------------------------------------------------------------ *)
(** ** The direct strategy *)

Section Direct.

Variables (env : Env) (w : Window) (n : Navigator).
Hypothesis Hwin : env_window env = Some w.
Hypothesis Hnav : env_navigator env = Some n.

Variable options : DirectOptions.t.

Lemma notInBrowser_false t : run notInBrowser env t = (Ret false, t).
Proof. unfold notInBrowser. js_unfold. now rewrite Hwin, Hnav. Qed.

Lemma directClipboardStep_skipped t :
  DirectOptions.skipClipboard options = Some true ->
  run (directClipboardStep options) env t =
  (Ret (false, Clipboard.skipped, None), t).
Proof. intros H. unfold directClipboardStep. now rewrite H. Qed.

Lemma directClipboardStep_unsupported t :
  skipped options = false ->
  ClipboardWriteAbsent env n ->
  run (directClipboardStep options) env t =
  (Ret (false, Clipboard.not_supported, None), t).
Proof.
  intros Hs Habs. unfold directClipboardStep. fold (skipped options).
  rewrite Hs. cbn [negb].
  rewrite (run_bind_ret _ _ env t _ _
             (isClipboardWriteSupported_absent env n t Hnav Habs)).
  rewrite (run_bind_ret _ _ env t _ _
             (isClipboardWriteSupported_absent env n t Hnav Habs)).
  reflexivity.
Qed.

(** The clipboard step never throws: what goes wrong inside is recorded
    as a status. *)
Lemma directClipboardStep_returns t :
  exists locals t', run (directClipboardStep options) env t = (Ret locals, t').
Proof.
  unfold directClipboardStep. destruct (negb _); [| js_unfold; eauto].
  destruct (isClipboardWriteSupported_returns env n t Hnav) as [b Hb].
  rewrite (run_bind_ret _ _ env t _ _ Hb).
  rewrite (run_bind_ret _ _ env t _ _ Hb).
  destruct b; [| js_unfold; eauto].
  apply (try_catch_returns _ (fun _ => (false, Clipboard.failed, None))).
Qed.

(** How the two steps of the strategy combine. *)
Lemma shareImageToInstagramDirect_run t ok status via t1 opened t2 :
  run (directClipboardStep options) env t = (Ret (ok, status, via), t1) ->
  run (tryOpenDeepLink (deepLinkFor options)) env t1 = (Ret opened, t2) ->
  run (shareImageToInstagramDirect options) env t =
  (Ret (if opened
        then ShareOk instagram
               (if ok then deep_link_clipboard else deep_link)
               (Some {| clipboard := status;
                        deepLinkOpened := Some true;
                        fetchedVia := via |})
        else ShareFail instagram Reason.not_supported None), t2).
Proof.
  intros Hc Ho. unfold shareImageToInstagramDirect.
  rewrite (run_bind_ret _ _ env t _ _ (notInBrowser_false t)). cbn iota zeta.
  rewrite (run_bind_ret _ _ env t _ _ Hc). cbn iota zeta.
  rewrite (run_bind_ret _ _ env t1 _ _ Ho).
  destruct opened; reflexivity.
Qed.

Lemma shareImageToInstagramDirect_returns t :
  exists r t',
    run (shareImageToInstagramDirect options) env t = (Ret r, t') /\
    match r with
    | ShareOk _ _ _ => True
    | ShareFail _ reason error =>
        reason = Reason.not_supported /\ error = None
    end.
Proof.
  destruct (directClipboardStep_returns t) as ([[ok status] via] & t1 & Hc).
  destruct (tryOpenDeepLink_returns env t1 (deepLinkFor options))
    as (opened & t2 & Ho).
  rewrite (shareImageToInstagramDirect_run t ok status via t1 opened t2 Hc Ho).
  do 2 eexists; split; [reflexivity |]. destruct opened; auto.
Qed.

End Direct.

(** Outside a browser the direct strategy stops at its guard. *)
Lemma shareImageToInstagramDirect_not_in_browser env options t :
  env_window env = None \/ env_navigator env = None ->
  run (shareImageToInstagramDirect options) env t =
  (Ret (ShareFail instagram Reason.not_in_browser None), t).
Proof.
  intros H. unfold shareImageToInstagramDirect, notInBrowser. js_unfold.
  destruct H as [-> | ->]; [reflexivity |].
  now destruct (env_window env).
Qed.

(** C1.  In a browser the direct strategy does not fail because of the
    clipboard: whatever the clipboard step recorded, a deep link that opens
    gives an [ok] result.  In particular, where image clipboard writes are
    not available (no [navigator.clipboard.write] function, or no
    [ClipboardItem]) and the clipboard step is not skipped, a successful
    deep-link open makes the strategy return [ok] with method [deep_link]
    and details [clipboard: "not_supported"], [deepLinkOpened: true] and
    no [fetchedVia]; the only calls made are those of the deep-link
    opener. *)
Theorem direct_clipboard_not_supported
    (env : Env) (w : Window) (n : Navigator) (options : DirectOptions.t)
    (t : Trace) :
  env_window env = Some w ->
  env_navigator env = Some n ->
  (forall ok status via t1 t2,
     run (directClipboardStep options) env t = (Ret (ok, status, via), t1) ->
     run (tryOpenDeepLink (deepLinkFor options)) env t1 = (Ret true, t2) ->
     run (shareImageToInstagramDirect options) env t =
     (Ret (ShareOk instagram
             (if ok then deep_link_clipboard else deep_link)
             (Some {| clipboard := status;
                      deepLinkOpened := Some true;
                      fetchedVia := via |})), t2)) /\
  (ClipboardWriteAbsent env n ->
   skipped options = false ->
   forall t',
     run (tryOpenDeepLink (deepLinkFor options)) env t = (Ret true, t') ->
     run (shareImageToInstagramDirect options) env t =
     (Ret (ShareOk instagram deep_link
             (Some {| clipboard := Clipboard.not_supported;
                      deepLinkOpened := Some true;
                      fetchedVia := None |})), t')).
Proof.
  intros Hwin Hnav. split.
  - intros ok status via t1 t2 Hc Ho.
    exact (shareImageToInstagramDirect_run env w n Hwin Hnav options t
             ok status via t1 true t2 Hc Ho).
  - intros Habs Hs t' Ho.
    exact (shareImageToInstagramDirect_run env w n Hwin Hnav options t
             false Clipboard.not_supported None t true t'
             (directClipboardStep_unsupported env n Hnav options t Hs Habs) Ho).
Qed.

Lemma direct_clipboard_not_supported_witness :
  run (shareImageToInstagramDirect (Sample.directOptions (Some false)))
      Sample.legacyBrowser [] =
  (Ret (ShareOk instagram deep_link
          (Some {| clipboard := Clipboard.not_supported;
                   deepLinkOpened := Some true;
                   fetchedVia := None |})),
   [EvLocationAssign "instagram://story-camera"]) /\
  run (shareImageToInstagramDirect (Sample.directOptions None))
      (Sample.browser Sample.goodWindow
                      (Sample.fullNavigator (Ret tt) (Throw Sample.notAllowed))
                      Sample.openFetch) [] =
  (Ret (ShareOk instagram deep_link
          (Some {| clipboard := Clipboard.failed;
                   deepLinkOpened := Some true;
                   fetchedVia := Some direct |})),
   [EvFetch Sample.cdnUrl; EvResponseBlob Sample.cdnUrl;
    EvNewClipboardItem "image/png" Sample.pngBlob;
    EvClipboardWrite "image/png" Sample.pngBlob;
    EvLocationAssign "instagram://story-camera"]).
Proof.
  split.
  - apply (proj2 (direct_clipboard_not_supported Sample.legacyBrowser
                    Sample.goodWindow Sample.bareNavigator
                    (Sample.directOptions (Some false)) [] eq_refl eq_refl)).
    + right. reflexivity.
    + reflexivity.
    + reflexivity.
  - apply (proj1 (direct_clipboard_not_supported
                    (Sample.browser Sample.goodWindow
                       (Sample.fullNavigator (Ret tt) (Throw Sample.notAllowed))
                       Sample.openFetch)
                    Sample.goodWindow
                    (Sample.fullNavigator (Ret tt) (Throw Sample.notAllowed))
                    (Sample.directOptions None) [] eq_refl eq_refl)
             false Clipboard.failed (Some direct)
             [EvFetch Sample.cdnUrl; EvResponseBlob Sample.cdnUrl;
              EvNewClipboardItem "image/png" Sample.pngBlob;
              EvClipboardWrite "image/png" Sample.pngBlob]);
      reflexivity.
Defined.

(** C2.  In a browser, the clipboard step of the direct strategy always
    completes, with some outcome (copied, failed, not supported or
    skipped).  Whatever that outcome, when [window.location.assign] and
    then [window.open] both throw for the deep link, the strategy returns
    the failure [not_supported], without an error attached. *)
Theorem direct_deep_link_failure
    (env : Env) (w : Window) (n : Navigator) (options : DirectOptions.t)
    (t : Trace) :
  env_window env = Some w ->
  env_navigator env = Some n ->
  (exists locals t1,
     run (directClipboardStep options) env t = (Ret locals, t1)) /\
  (forall ok status via t1 e e',
     run (directClipboardStep options) env t = (Ret (ok, status, via), t1) ->
     let url := deepLinkFor options in
     location_assign (window_location w) t1 url = Throw e ->
     window_open w (t1 ++ [EvLocationAssign url])%list url "_blank" = Throw e' ->
     run (shareImageToInstagramDirect options) env t =
     (Ret (ShareFail instagram Reason.not_supported None),
      (t1 ++ [EvLocationAssign url; EvWindowOpen url "_blank"])%list)).
Proof.
  intros Hwin Hnav. split.
  - now apply directClipboardStep_returns with n.
  - intros ok status via t1 e e' Hc url Ha Hopen. fold url.
    rewrite (shareImageToInstagramDirect_run env w n Hwin Hnav options t
               ok status via t1 false
               (t1 ++ [EvLocationAssign url; EvWindowOpen url "_blank"])%list Hc).
    + reflexivity.
    + fold url.
      rewrite (tryOpenDeepLink_assign_throws env t1 url w e Hwin Ha).
      now rewrite Hopen.
Qed.

Lemma direct_deep_link_failure_witness :
  run (shareImageToInstagramDirect (Sample.directOptions None))
      (Sample.browser Sample.lockedWindow
                      (Sample.fullNavigator (Ret tt) (Ret tt))
                      Sample.corsBlockedFetch) [] =
  (Ret (ShareFail instagram Reason.not_supported None),
   [EvFetch Sample.cdnUrl;
    EvNewURL "/_next/image" Sample.pageOrigin;
    EvFetch Sample.optimizerUrl;
    EvResponseBlob Sample.optimizerUrl;
    EvNewClipboardItem "image/png" Sample.pngBlob;
    EvClipboardWrite "image/png" Sample.pngBlob;
    EvLocationAssign "instagram://story-camera";
    EvWindowOpen "instagram://story-camera" "_blank"]) /\
  run (shareImageToInstagramDirect (Sample.directOptions (Some true)))
      (Sample.browser Sample.lockedWindow
                      (Sample.fullNavigator (Ret tt) (Ret tt))
                      Sample.corsBlockedFetch) [] =
  (Ret (ShareFail instagram Reason.not_supported None),
   [EvLocationAssign "instagram://story-camera";
    EvWindowOpen "instagram://story-camera" "_blank"]).
Proof.
  split.
  - apply (proj2 (direct_deep_link_failure
                    (Sample.browser Sample.lockedWindow
                                    (Sample.fullNavigator (Ret tt) (Ret tt))
                                    Sample.corsBlockedFetch)
                    Sample.lockedWindow
                    (Sample.fullNavigator (Ret tt) (Ret tt))
                    (Sample.directOptions None) [] eq_refl eq_refl)
             true Clipboard.copied (Some next_image_optimizer)
             [EvFetch Sample.cdnUrl;
              EvNewURL "/_next/image" Sample.pageOrigin;
              EvFetch Sample.optimizerUrl;
              EvResponseBlob Sample.optimizerUrl;
              EvNewClipboardItem "image/png" Sample.pngBlob;
              EvClipboardWrite "image/png" Sample.pngBlob]
             Sample.securityError Sample.securityError);
      reflexivity.
  - apply (proj2 (direct_deep_link_failure
                    (Sample.browser Sample.lockedWindow
                                    (Sample.fullNavigator (Ret tt) (Ret tt))
                                    Sample.corsBlockedFetch)
                    Sample.lockedWindow
                    (Sample.fullNavigator (Ret tt) (Ret tt))
                    (Sample.directOptions (Some true)) [] eq_refl eq_refl)
             false Clipboard.skipped None []
             Sample.securityError Sample.securityError);
      reflexivity.
Defined.

Lemma tryOpenDeepLink_calls env w t url :
  env_window env = Some w ->
  exists b t' evs,
    run (tryOpenDeepLink url) env t = (Ret b, t') /\
    extends t t' evs /\ deepLinkCalls url evs.
Proof.
  intros H. unfold extends, deepLinkCalls.
  destruct (location_assign (window_location w) t url) as [[] | e] eqn:Ha.
  - rewrite (tryOpenDeepLink_assign_ok env t url w H Ha). eauto 7.
  - rewrite (tryOpenDeepLink_assign_throws env t url w e H Ha). eauto 7.
Qed.

(** C10.  In a browser, with [skipClipboard] true, the clipboard step of
    the direct strategy calls nothing: no fetch, no clipboard write.  The
    whole strategy calls only the deep-link opener, a success never has
    method [deep_link_clipboard], and when the deep link opens the result
    is [ok] with method [deep_link] and details [clipboard: "skipped"],
    [deepLinkOpened: true], without [fetchedVia]. *)
Theorem direct_skip_clipboard
    (env : Env) (w : Window) (n : Navigator) (options : DirectOptions.t)
    (t : Trace) :
  env_window env = Some w ->
  env_navigator env = Some n ->
  DirectOptions.skipClipboard options = Some true ->
  run (directClipboardStep options) env t =
    (Ret (false, Clipboard.skipped, None), t) /\
  (exists r t' evs,
     run (shareImageToInstagramDirect options) env t = (Ret r, t') /\
     extends t t' evs /\ deepLinkCalls (deepLinkFor options) evs /\
     forall p m d, r = ShareOk p m d -> m = deep_link) /\
  (forall t',
     run (tryOpenDeepLink (deepLinkFor options)) env t = (Ret true, t') ->
     run (shareImageToInstagramDirect options) env t =
     (Ret (ShareOk instagram deep_link
             (Some {| clipboard := Clipboard.skipped;
                      deepLinkOpened := Some true;
                      fetchedVia := None |})), t')).
Proof.
  intros Hwin Hnav Hskip.
  pose proof (directClipboardStep_skipped env options t Hskip) as Hc.
  split; [exact Hc | split].
  - destruct (tryOpenDeepLink_calls env w t (deepLinkFor options) Hwin)
      as (b & t' & evs & Ho & Hext & Hcalls).
    rewrite (shareImageToInstagramDirect_run env w n Hwin Hnav options t
               false Clipboard.skipped None t b t' Hc Ho).
    do 3 eexists. split; [reflexivity |]. split; [exact Hext |].
    split; [exact Hcalls |].
    intros p m d Hr. destruct b; [now inversion Hr | discriminate].
  - intros t' Ho.
    exact (shareImageToInstagramDirect_run env w n Hwin Hnav options t
             false Clipboard.skipped None t true t' Hc Ho).
Qed.

Lemma direct_skip_clipboard_witness :
  run (shareImageToInstagramDirect (Sample.directOptions (Some true)))
      (Sample.browser Sample.goodWindow
                      (Sample.fullNavigator (Ret tt) (Ret tt))
                      Sample.corsBlockedFetch) [] =
  (Ret (ShareOk instagram deep_link
          (Some {| clipboard := Clipboard.skipped;
                   deepLinkOpened := Some true;
                   fetchedVia := None |})),
   [EvLocationAssign "instagram://story-camera"]).
Proof.
  apply (proj2 (proj2 (direct_skip_clipboard
                  (Sample.browser Sample.goodWindow
                                  (Sample.fullNavigator (Ret tt) (Ret tt))
                                  Sample.corsBlockedFetch)
                  Sample.goodWindow (Sample.fullNavigator (Ret tt) (Ret tt))
                  (Sample.directOptions (Some true)) []
                  eq_refl eq_refl eq_refl))).
  reflexivity.
Defined.

(* ------------------------------------------------------------------ *)
(** ** The Web Share strategy *)

Lemma global_navigator_run env n t :
  env_navigator env = Some n -> run global_navigator env t = (Ret n, t).
Proof. intros H. unfold global_navigator. js_unfold. now rewrite H. Qed.

Lemma shareImageViaWebShare_not_in_browser env payload t :
  env_window env = None \/ env_navigator env = None ->
  run (shareImageViaWebShare payload) env t =
  (Ret (ShareFail instagram Reason.not_in_browser None), t).
Proof.
  intros H. unfold shareImageViaWebShare, notInBrowser. js_unfold.
  destruct H as [-> | ->]; [reflexivity |].
  now destruct (env_window env).
Qed.

Lemma canShareStep_returns env n file t :
  exists b t', run (canShareStep n file) env t = (Ret b, t').
Proof. apply (try_catch_returns _ (fun _ => false)). Qed.

Section WebShare.

Variables (env : Env) (w : Window) (n : Navigator).
Hypothesis Hwin : env_window env = Some w.
Hypothesis Hnav : env_navigator env = Some n.

Variable payload : SharePayload.

Lemma shareImageViaWebShare_no_share t :
  (forall f, navigator_share n <> Callable f) ->
  run (shareImageViaWebShare payload) env t =
  (Ret (ShareFail instagram Reason.not_supported None), t).
Proof.
  intros Hno. unfold shareImageViaWebShare.
  rewrite (run_bind_ret _ _ env t _ _ (notInBrowser_false env w n Hwin Hnav t)).
  cbn iota.
  rewrite (run_bind_ret _ _ env t _ _ (global_navigator_run env n t Hnav)).
  destruct (navigator_share n) as [| | | f]; try reflexivity.
  now destruct (Hno f).
Qed.

Variable share_fn : Trace -> ShareData -> Outcome unit.
Hypothesis Hshare : navigator_share n = Callable share_fn.

Lemma shareImageViaWebShare_other_kind t :
  kind payload <> "image" ->
  run (shareImageViaWebShare payload) env t =
  (Ret (ShareFail instagram Reason.unknown None), t).
Proof.
  intros Hk. unfold shareImageViaWebShare.
  rewrite (run_bind_ret _ _ env t _ _ (notInBrowser_false env w n Hwin Hnav t)).
  cbn iota.
  rewrite (run_bind_ret _ _ env t _ _ (global_navigator_run env n t Hnav)).
  rewrite Hshare. apply String.eqb_neq in Hk. now rewrite Hk.
Qed.

Hypothesis Hkind : kind payload = "image".

(** From the fetch on: the strategy, given what [fileFromUrl] did. *)
Lemma shareImageViaWebShare_after_fetch t o t1 :
  run (fileFromUrl (imageUrl payload) (filename payload) None) env t = (o, t1) ->
  run (shareImageViaWebShare payload) env t =
  match o with
  | Throw e => (Ret (ShareFail instagram Reason.fetch_failed (Some e)), t1)
  | Ret file =>
      match run (canShareStep n file) env t1 with
      | (Ret true, t2) =>
          (Ret (ShareFail instagram Reason.not_supported None), t2)
      | (Ret false, t2) =>
          let data := shareDataFor payload file in
          (match share_fn t2 data with
           | Ret _ => Ret (ShareOk instagram web_share None)
           | Throw e =>
               Ret (ShareFail instagram
                      (if isAbortError e then Reason.user_cancelled
                       else Reason.unknown) (Some e))
           end, (t2 ++ [EvShare data])%list)
      | (Throw e, t2) => (Throw e, t2)
      end
  end.
Proof.
  intros Hf. unfold shareImageViaWebShare.
  rewrite (run_bind_ret _ _ env t _ _ (notInBrowser_false env w n Hwin Hnav t)).
  cbn iota.
  rewrite (run_bind_ret _ _ env t _ _ (global_navigator_run env n t Hnav)).
  rewrite Hshare, Hkind. cbn [String.eqb Ascii.eqb Bool.eqb negb].
  js_unfold. rewrite Hf.
  destruct o as [file | e]; [| reflexivity].
  destruct (canShareStep n file env t1) as [[[|] | e] t2]; try reflexivity.
  destruct (share_fn t2 (shareDataFor payload file)) as [[] | e];
    [reflexivity |].
  now destruct (isAbortError e).
Qed.

Lemma shareImageViaWebShare_returns_image t :
  exists r t',
    run (shareImageViaWebShare payload) env t = (Ret r, t') /\
    match r with
    | ShareOk _ m _ => m = web_share
    | ShareFail _ reason _ =>
        reason = Reason.not_supported \/ reason = Reason.fetch_failed \/
        reason = Reason.user_cancelled \/ reason = Reason.unknown
    end.
Proof.
  destruct (fileFromUrl_outcome env t (imageUrl payload) (filename payload) None)
    as (o & t1 & Hf).
  rewrite (shareImageViaWebShare_after_fetch t o t1 Hf).
  destruct o as [file | e]; [| js_done].
  destruct (canShareStep_returns env n file t1) as (b & t2 & Hc).
  rewrite Hc. destruct b; [js_done |].
  cbn zeta.
  destruct (share_fn t2 (shareDataFor payload file)) as [[] | e]; [js_done |].
  destruct (isAbortError e); js_done.
Qed.

End WebShare.

(** C3.  In a browser whose [navigator] has no callable [share], the Web
    Share strategy returns the failure [not_supported] for every payload,
    those of kind "image" included, and the trace is unchanged: nothing
    was fetched, no collaborator was called. *)
Theorem webShare_without_share_primitive
    (env : Env) (w : Window) (n : Navigator) (payload : SharePayload)
    (t : Trace) :
  env_window env = Some w ->
  env_navigator env = Some n ->
  (forall f, navigator_share n <> Callable f) ->
  run (shareImageViaWebShare payload) env t =
  (Ret (ShareFail instagram Reason.not_supported None), t).
Proof.
  intros Hwin Hnav Hno.
  now apply shareImageViaWebShare_no_share with w n.
Qed.

Lemma webShare_without_share_primitive_witness :
  kind Sample.imagePayload = "image" /\
  run (shareImageViaWebShare Sample.imagePayload) Sample.legacyBrowser [] =
  (Ret (ShareFail instagram Reason.not_supported None), []).
Proof.
  split; [reflexivity |].
  apply (webShare_without_share_primitive Sample.legacyBrowser
           Sample.goodWindow Sample.bareNavigator Sample.imagePayload []
           eq_refl eq_refl).
  intros f; discriminate.
Defined.

(** C9.  The Web Share strategy fetches without the optimizer fallback.
    Once its guards are passed (browser, callable [navigator.share], kind
    "image"), a failed direct fetch of [imageUrl] makes it return the
    failure [fetch_failed] carrying the fetcher's error, and the trace is
    the one the single direct fetch left: no URL was built and no second
    request was made. *)
Theorem webShare_no_optimizer_fallback
    (env : Env) (w : Window) (n : Navigator)
    (share_fn : Trace -> ShareData -> Outcome unit)
    (payload : SharePayload) (t t1 : Trace) :
  env_window env = Some w ->
  env_navigator env = Some n ->
  navigator_share n = Callable share_fn ->
  kind payload = "image" ->
  run (tryFetchBlob (imageUrl payload)) env t = (Ret None, t1) ->
  run (shareImageViaWebShare payload) env t =
    (Ret (ShareFail instagram Reason.fetch_failed (Some failedToFetch)), t1) /\
  exists evs, extends t t1 evs /\ oneFetch (imageUrl payload) evs.
Proof.
  intros Hwin Hnav Hshare Hkind Hfetch. split.
  - rewrite (shareImageViaWebShare_after_fetch env w n Hwin Hnav payload
               share_fn Hshare Hkind t (Throw failedToFetch) t1);
      [reflexivity |].
    now apply fileFromUrl_no_fallback.
  - destruct (tryFetchBlob_returns env t (imageUrl payload))
      as (ob & t' & evs & Hrun & Hext & Hone).
    rewrite Hfetch in Hrun. inversion Hrun; subst. eauto.
Qed.

Lemma webShare_no_optimizer_fallback_witness :
  run (shareImageViaWebShare Sample.imagePayload)
      (Sample.browser Sample.goodWindow
                      (Sample.fullNavigator (Ret tt) (Ret tt))
                      Sample.corsBlockedFetch) [] =
    (Ret (ShareFail instagram Reason.fetch_failed (Some failedToFetch)),
     [EvFetch Sample.cdnUrl]) /\
  fst (run (fileFromUrl Sample.cdnUrl None fallbackAllowed)
           (Sample.browser Sample.goodWindow
                           (Sample.fullNavigator (Ret tt) (Ret tt))
                           Sample.corsBlockedFetch) []) =
    Ret {| file_bytes := [x89; x50; x4e; x47];
           file_name := "shared-image.png";
           file_type := "image/png";
           file_lastModified := 1765800000000;
           __fetchedVia := Some next_image_optimizer |}.
Proof.
  split; [| reflexivity].
  apply (webShare_no_optimizer_fallback
           (Sample.browser Sample.goodWindow
                           (Sample.fullNavigator (Ret tt) (Ret tt))
                           Sample.corsBlockedFetch)
           Sample.goodWindow (Sample.fullNavigator (Ret tt) (Ret tt))
           (fun _ _ => Ret tt) Sample.imagePayload [] [EvFetch Sample.cdnUrl]
           eq_refl eq_refl eq_refl eq_refl eq_refl).
Defined.

Lemma isAbortError_iff e : isAbortError e = true <-> NamedAbortError e.
Proof.
  unfold isAbortError, NamedAbortError. split.
  - destruct e; cbn; try discriminate;
      try (destruct (negb _); discriminate);
      try (destruct b; discriminate).
    intros H. exists props. split; [reflexivity |].
    destruct (Js.lookup "name" props); cbn in H; try discriminate.
    apply String.eqb_eq in H. now subst.
  - intros (props & -> & H). cbn. rewrite H. reflexivity.
Qed.

Lemma isAbortError_false_iff e : isAbortError e = false <-> ~ NamedAbortError e.
Proof.
  rewrite <- isAbortError_iff. destruct (isAbortError e); split;
    congruence.
Qed.

(** C5.  When the Web Share strategy reaches [navigator.share] (guards
    passed, image fetched, [canShare] not refusing) and the call throws
    [e]: if [e] is an object whose [name] is exactly "AbortError" the
    result is the failure [user_cancelled] with [e] attached; for every
    other thrown value (a primitive, [null], a function, an object with
    another or no name) it is the failure [unknown] with [e] attached. *)
Theorem webShare_cancellation_mapping
    (env : Env) (w : Window) (n : Navigator)
    (share_fn : Trace -> ShareData -> Outcome unit)
    (payload : SharePayload) (file : File) (t t1 t2 : Trace) (e : JsVal) :
  env_window env = Some w ->
  env_navigator env = Some n ->
  navigator_share n = Callable share_fn ->
  kind payload = "image" ->
  run (fileFromUrl (imageUrl payload) (filename payload) None) env t =
    (Ret file, t1) ->
  run (canShareStep n file) env t1 = (Ret false, t2) ->
  share_fn t2 (shareDataFor payload file) = Throw e ->
  let t3 := (t2 ++ [EvShare (shareDataFor payload file)])%list in
  (NamedAbortError e ->
   run (shareImageViaWebShare payload) env t =
   (Ret (ShareFail instagram Reason.user_cancelled (Some e)), t3)) /\
  (~ NamedAbortError e ->
   run (shareImageViaWebShare payload) env t =
   (Ret (ShareFail instagram Reason.unknown (Some e)), t3)).
Proof.
  intros Hwin Hnav Hshare Hkind Hf Hc He t3.
  pose proof (shareImageViaWebShare_after_fetch env w n Hwin Hnav payload
                share_fn Hshare Hkind t (Ret file) t1 Hf) as Hrun.
  cbn iota in Hrun. rewrite Hc in Hrun. cbn zeta in Hrun. rewrite He in Hrun.
  fold t3 in Hrun. split; intros Hab.
  - apply isAbortError_iff in Hab. now rewrite Hab in Hrun.
  - apply isAbortError_false_iff in Hab. now rewrite Hab in Hrun.
Qed.

Lemma webShare_cancellation_mapping_witness :
  run (shareImageViaWebShare Sample.imagePayload)
      (Sample.browser Sample.goodWindow
                      (Sample.fullNavigator (Throw Sample.abortError) (Ret tt))
                      Sample.openFetch) [] =
    (Ret (ShareFail instagram Reason.user_cancelled (Some Sample.abortError)),
     [EvFetch Sample.cdnUrl; EvResponseBlob Sample.cdnUrl;
      EvCanShare [Sample.sharedFile];
      EvShare (shareDataFor Sample.imagePayload Sample.sharedFile)]) /\
  run (shareImageViaWebShare Sample.imagePayload)
      (Sample.browser Sample.goodWindow
                      (Sample.fullNavigator (Throw (VString "AbortError")) (Ret tt))
                      Sample.openFetch) [] =
    (Ret (ShareFail instagram Reason.unknown (Some (VString "AbortError"))),
     [EvFetch Sample.cdnUrl; EvResponseBlob Sample.cdnUrl;
      EvCanShare [Sample.sharedFile];
      EvShare (shareDataFor Sample.imagePayload Sample.sharedFile)]).
Proof.
  split.
  - apply (proj1 (webShare_cancellation_mapping
                    (Sample.browser Sample.goodWindow
                       (Sample.fullNavigator (Throw Sample.abortError) (Ret tt))
                       Sample.openFetch)
                    Sample.goodWindow
                    (Sample.fullNavigator (Throw Sample.abortError) (Ret tt))
                    (fun _ _ => Throw Sample.abortError)
                    Sample.imagePayload Sample.sharedFile []
                    [EvFetch Sample.cdnUrl; EvResponseBlob Sample.cdnUrl]
                    [EvFetch Sample.cdnUrl; EvResponseBlob Sample.cdnUrl;
                     EvCanShare [Sample.sharedFile]]
                    Sample.abortError
                    eq_refl eq_refl eq_refl eq_refl eq_refl eq_refl eq_refl)).
    eexists. split; reflexivity.
  - apply (proj2 (webShare_cancellation_mapping
                    (Sample.browser Sample.goodWindow
                       (Sample.fullNavigator (Throw (VString "AbortError")) (Ret tt))
                       Sample.openFetch)
                    Sample.goodWindow
                    (Sample.fullNavigator (Throw (VString "AbortError")) (Ret tt))
                    (fun _ _ => Throw (VString "AbortError"))
                    Sample.imagePayload Sample.sharedFile []
                    [EvFetch Sample.cdnUrl; EvResponseBlob Sample.cdnUrl]
                    [EvFetch Sample.cdnUrl; EvResponseBlob Sample.cdnUrl;
                     EvCanShare [Sample.sharedFile]]
                    (VString "AbortError")
                    eq_refl eq_refl eq_refl eq_refl eq_refl eq_refl eq_refl)).
    intros (props & H & _). discriminate.
Defined.

(* ------------------------------------------------------------------ *)
(** ** No exception leaves a strategy *)

Lemma shareImageViaWebShare_returns env payload t :
  exists r t',
    run (shareImageViaWebShare payload) env t = (Ret r, t') /\
    forall p reason error, r = ShareFail p reason error -> webShareReason reason.
Proof.
  unfold webShareReason.
  destruct (env_window env) as [w |] eqn:Hwin;
    [| rewrite shareImageViaWebShare_not_in_browser by auto;
       do 2 eexists; split; [reflexivity | intros ? ? ? Heq; inversion Heq; auto 6]].
  destruct (env_navigator env) as [n |] eqn:Hnav;
    [| rewrite shareImageViaWebShare_not_in_browser by auto;
       do 2 eexists; split; [reflexivity | intros ? ? ? Heq; inversion Heq; auto 6]].
  destruct (navigator_share n) as [| | | share_fn] eqn:Hshare;
    try (rewrite (shareImageViaWebShare_no_share env w n Hwin Hnav payload t)
          by (rewrite Hshare; discriminate);
         do 2 eexists; split; [reflexivity | intros ? ? ? Heq; inversion Heq; auto 6]).
  destruct (String.eqb_spec (kind payload) "image") as [Hkind | Hkind].
  - destruct (shareImageViaWebShare_returns_image env w n Hwin Hnav payload
                share_fn Hshare Hkind t) as (r & t' & Hrun & Hr).
    exists r, t'. split; [exact Hrun |].
    intros p reason error ->. cbn in Hr. intuition.
  - rewrite (shareImageViaWebShare_other_kind env w n Hwin Hnav payload
               share_fn Hshare t Hkind).
    do 2 eexists; split; [reflexivity | intros ? ? ? Heq; inversion Heq; auto 6].
Qed.

Lemma shareImageToInstagramDirect_returns_any env options t :
  exists r t',
    run (shareImageToInstagramDirect options) env t = (Ret r, t') /\
    forall p reason error,
      r = ShareFail p reason error -> directReason reason /\ error = None.
Proof.
  unfold directReason.
  destruct (env_window env) as [w |] eqn:Hwin;
    [| rewrite shareImageToInstagramDirect_not_in_browser by auto;
       do 2 eexists; split; [reflexivity | intros ? ? ? Heq; inversion Heq; auto]].
  destruct (env_navigator env) as [n |] eqn:Hnav;
    [| rewrite shareImageToInstagramDirect_not_in_browser by auto;
       do 2 eexists; split; [reflexivity | intros ? ? ? Heq; inversion Heq; auto]].
  destruct (shareImageToInstagramDirect_returns env w n Hwin Hnav options t)
    as (r & t' & Hrun & Hr).
  exists r, t'. split; [exact Hrun |].
  intros p reason error ->. destruct Hr as [-> ->]. auto.
Qed.

(** C6.  Whatever the browser collaborators do — [fetch], the response
    body, [URL], [canShare], [navigator.share], [ClipboardItem],
    [clipboard.write], [location.assign], [window.open] may each return or
    throw anything — both strategies return a [ShareResult] and never
    throw; a failure carries a reason of the enumeration (the Web Share
    strategy: [not_in_browser], [not_supported], [fetch_failed],
    [user_cancelled] or [unknown]; the direct strategy: [not_in_browser]
    or [not_supported]).  In a page, [tryWriteImageToClipboard] always
    returns a boolean, and that boolean is [false] whenever the
    [ClipboardItem] constructor or [clipboard.write] throws. *)
Theorem strategies_never_throw :
  (forall env payload t,
     exists r t',
       run (shareImageViaWebShare payload) env t = (Ret r, t') /\
       forall p reason error,
         r = ShareFail p reason error -> webShareReason reason) /\
  (forall env options t,
     exists r t',
       run (shareImageToInstagramDirect options) env t = (Ret r, t') /\
       forall p reason error,
         r = ShareFail p reason error -> directReason reason /\ error = None) /\
  (forall env n file t,
     env_navigator env = Some n ->
     exists b t', run (tryWriteImageToClipboard file) env t = (Ret b, t')) /\
  (forall env n c wr k file t,
     env_navigator env = Some n ->
     navigator_clipboard n = Some c ->
     clipboard_write c = Callable wr ->
     env_ClipboardItem env = Some k ->
     let mime := clipboardMime file in
     let blob := sliceAll file mime in
     let t1 := (t ++ [EvNewClipboardItem mime blob])%list in
     (forall e, k t mime blob = Throw e ->
                run (tryWriteImageToClipboard file) env t = (Ret false, t1)) /\
     (forall e, k t mime blob = Ret tt -> wr t1 mime blob = Throw e ->
                run (tryWriteImageToClipboard file) env t =
                (Ret false, (t1 ++ [EvClipboardWrite mime blob])%list))).
Proof.
  split; [exact shareImageViaWebShare_returns |].
  split; [exact shareImageToInstagramDirect_returns_any |].
  split; [intros env n file t Hnav;
          now apply tryWriteImageToClipboard_returns with n |].
  intros env n c wr k file t Hnav Hc Hwr Hk mime blob t1.
  pose proof (tryWriteImageToClipboard_run env n t Hnav c wr k file Hc Hwr Hk)
    as Hrun. cbn zeta in Hrun. fold mime blob t1 in Hrun.
  split.
  - intros e He. now rewrite He in Hrun.
  - intros e He Hw. rewrite He in Hrun. fold mime blob t1 in Hrun.
    rewrite Hw in Hrun. rewrite Hrun. unfold t1. now rewrite <- app_assoc.
Qed.

Lemma strategies_never_throw_witness :
  (exists r t',
     run (shareImageViaWebShare Sample.imagePayload) Sample.hostileBrowser [] =
     (Ret r, t')) /\
  (exists r t',
     run (shareImageToInstagramDirect (Sample.directOptions None))
         Sample.hostileBrowser [] = (Ret r, t')) /\
  (exists b t',
     run (tryWriteImageToClipboard Sample.sharedFile) Sample.hostileBrowser [] =
     (Ret b, t')) /\
  run (tryWriteImageToClipboard Sample.sharedFile)
      (Sample.browser Sample.goodWindow
                      (Sample.fullNavigator (Ret tt) (Throw Sample.notAllowed))
                      Sample.openFetch) [] =
  (Ret false,
   [EvNewClipboardItem "image/png" Sample.pngBlob;
    EvClipboardWrite "image/png" Sample.pngBlob]).
Proof.
  split; [| split; [| split]].
  - destruct (proj1 strategies_never_throw Sample.hostileBrowser
                Sample.imagePayload []) as (r & t' & H & _).
    now exists r, t'.
  - destruct (proj1 (proj2 strategies_never_throw) Sample.hostileBrowser
                (Sample.directOptions None) []) as (r & t' & H & _).
    now exists r, t'.
  - apply (proj1 (proj2 (proj2 strategies_never_throw)) Sample.hostileBrowser
             Sample.hostileNavigator Sample.sharedFile [] eq_refl).
  - apply (proj2 (proj2 (proj2 (proj2 strategies_never_throw))
                    (Sample.browser Sample.goodWindow
                       (Sample.fullNavigator (Ret tt) (Throw Sample.notAllowed))
                       Sample.openFetch)
                    (Sample.fullNavigator (Ret tt) (Throw Sample.notAllowed))
                    {| clipboard_write :=
                         Callable (fun _ _ _ => Throw Sample.notAllowed) |}
                    (fun _ _ _ => Throw Sample.notAllowed)
                    (fun _ _ _ => Ret tt)
                    Sample.sharedFile []
                    eq_refl eq_refl eq_refl eq_refl)
            Sample.notAllowed);
      reflexivity.
Defined.

(* ------------------------------------------------------------------ *)
(** ** Entry points and guards *)

Lemma shareImageToInstagram_run env options t :
  run (shareImageToInstagram options) env t =
  run (shareImageViaWebShare
         {| kind := "image"; imageUrl := imageUrl options;
            filename := filename options; title := title options;
            text := text options |}) env t.
Proof. reflexivity. Qed.

(** X1.  Where [window] or [navigator] is not defined (server-side
    rendering, a worker), every entry point of the module returns the
    failure [not_in_browser] and calls no collaborator at all: nothing is
    fetched, nothing is opened. *)
Theorem entry_points_outside_browser
    (env : Env) (payload : SharePayload) (options : DirectOptions.t)
    (t : Trace) :
  env_window env = None \/ env_navigator env = None ->
  let failure := (Ret (ShareFail instagram Reason.not_in_browser None), t) in
  run (share {| provider := instagram; payload := payload |}) env t = failure /\
  run (shareImageToInstagram payload) env t = failure /\
  run (shareImageToInstagramDirect options) env t = failure.
Proof.
  intros H failure. repeat split.
  - now apply shareImageViaWebShare_not_in_browser.
  - rewrite shareImageToInstagram_run.
    now apply shareImageViaWebShare_not_in_browser.
  - now apply shareImageToInstagramDirect_not_in_browser.
Qed.

Lemma entry_points_outside_browser_witness :
  run (shareImageToInstagram Sample.imagePayload) Scenario.server [] =
    (Ret (ShareFail instagram Reason.not_in_browser None), []) /\
  run (shareImageToInstagramDirect (Sample.directOptions None))
      Scenario.server [] =
    (Ret (ShareFail instagram Reason.not_in_browser None), []).
Proof.
  split;
    apply (entry_points_outside_browser Scenario.server Sample.imagePayload
             (Sample.directOptions None) [] (or_introl eq_refl)).
Defined.

(** X2.  In a browser with a callable [navigator.share], a payload whose
    [kind] is not "image" makes the Web Share strategy return the failure
    [unknown] with no error attached, before anything is fetched or
    called. *)
Theorem webShare_rejects_other_kind
    (env : Env) (w : Window) (n : Navigator)
    (share_fn : Trace -> ShareData -> Outcome unit)
    (payload : SharePayload) (t : Trace) :
  env_window env = Some w ->
  env_navigator env = Some n ->
  navigator_share n = Callable share_fn ->
  kind payload <> "image" ->
  run (shareImageViaWebShare payload) env t =
  (Ret (ShareFail instagram Reason.unknown None), t).
Proof.
  intros Hwin Hnav Hshare Hkind.
  now apply shareImageViaWebShare_other_kind with w n share_fn.
Qed.

Lemma webShare_rejects_other_kind_witness :
  run (shareImageViaWebShare Scenario.videoPayload)
      (Sample.browser Sample.goodWindow
                      (Sample.fullNavigator (Ret tt) (Ret tt))
                      Sample.openFetch) [] =
  (Ret (ShareFail instagram Reason.unknown None), []).
Proof.
  apply (webShare_rejects_other_kind
           (Sample.browser Sample.goodWindow
                           (Sample.fullNavigator (Ret tt) (Ret tt))
                           Sample.openFetch)
           Sample.goodWindow (Sample.fullNavigator (Ret tt) (Ret tt))
           (fun _ _ => Ret tt) Scenario.videoPayload []
           eq_refl eq_refl eq_refl).
  discriminate.
Defined.





(* ------------------------------------------------------------------ *)
(** ** The [canShare] probe *)

Lemma canShareStep_run env n file t :
  run (canShareStep n file) env t =
  (Ret (match navigator_canShare n with
        | Callable canShare_fn =>
            match canShare_fn t [file] with
            | Ret v => Js.strictEqFalse v
            | Throw _ => false
            end
        | _ => false
        end),
   (t ++ canShareCalls n file)%list).
Proof.
  unfold canShareStep, canShareCalls. js_unfold.
  destruct (navigator_canShare n) as [| | | f];
    try now rewrite app_nil_r.
  now destruct (f t [file]).
Qed.

Lemma strictEqFalse_iff v : Js.strictEqFalse v = true <-> v = VBool false.
Proof.
  split; [| now intros ->].
  destruct v as [| | [|] | | | | | | |]; cbn; congruence.
Qed.

Lemma canShareStep_refuses_iff env n file t :
  (exists t', run (canShareStep n file) env t = (Ret true, t')) <->
  CanShareRefuses n file t.
Proof.
  rewrite canShareStep_run. unfold CanShareRefuses. split.
  - intros [t' H]. inversion H as [[Hb Ht]]. clear H Ht.
    destruct (navigator_canShare n) as [| | | f]; try discriminate.
    exists f. split; [reflexivity |].
    destruct (f t [file]) as [v | e]; [| discriminate].
    apply strictEqFalse_iff in Hb. now subst.
  - intros (f & -> & ->). eauto.
Qed.

Section CanShare.

Variables (env : Env) (w : Window) (n : Navigator).
Variable share_fn : Trace -> ShareData -> Outcome unit.
Variables (payload : SharePayload) (file : File) (t t1 : Trace).
Hypothesis Hwin : env_window env = Some w.
Hypothesis Hnav : env_navigator env = Some n.
Hypothesis Hshare : navigator_share n = Callable share_fn.
Hypothesis Hkind : kind payload = "image".
Hypothesis Hfile :
  run (fileFromUrl (imageUrl payload) (filename payload) None) env t =
  (Ret file, t1).

Lemma shareImageViaWebShare_refused :
  CanShareRefuses n file t1 ->
  run (shareImageViaWebShare payload) env t =
  (Ret (ShareFail instagram Reason.not_supported None),
   (t1 ++ [EvCanShare [file]])%list).
Proof.
  intros (f & Hf & Hv).
  rewrite (shareImageViaWebShare_after_fetch env w n Hwin Hnav payload
             share_fn Hshare Hkind t (Ret file) t1 Hfile).
  rewrite canShareStep_run. unfold canShareCalls. now rewrite Hf, Hv.
Qed.

Lemma shareImageViaWebShare_proceeds :
  ~ CanShareRefuses n file t1 ->
  let t2 := (t1 ++ canShareCalls n file)%list in
  let data := shareDataFor payload file in
  run (shareImageViaWebShare payload) env t =
  (match share_fn t2 data with
   | Ret _ => Ret (ShareOk instagram web_share None)
   | Throw e =>
       Ret (ShareFail instagram
              (if isAbortError e then Reason.user_cancelled
               else Reason.unknown) (Some e))
   end, (t2 ++ [EvShare data])%list).
Proof.
  intros Hno t2 data.
  rewrite (shareImageViaWebShare_after_fetch env w n Hwin Hnav payload
             share_fn Hshare Hkind t (Ret file) t1 Hfile).
  destruct (run (canShareStep n file) env t1) as [[[|] | e] t'] eqn:Hc.
  - exfalso. apply Hno. apply (canShareStep_refuses_iff env). eauto.
  - rewrite canShareStep_run in Hc. inversion Hc. reflexivity.
  - rewrite canShareStep_run in Hc. discriminate.
Qed.

End CanShare.

(** X4.  Once the image is fetched, if [navigator.canShare] is a function
    and answers exactly [false] for the file, the Web Share strategy
    returns the failure [not_supported], and the last call made is that
    probe: [navigator.share] is not invoked. *)
Theorem webShare_canShare_refusal
    (env : Env) (w : Window) (n : Navigator)
    (share_fn : Trace -> ShareData -> Outcome unit)
    (payload : SharePayload) (file : File) (t t1 : Trace) :
  env_window env = Some w ->
  env_navigator env = Some n ->
  navigator_share n = Callable share_fn ->
  kind payload = "image" ->
  run (fileFromUrl (imageUrl payload) (filename payload) None) env t =
    (Ret file, t1) ->
  CanShareRefuses n file t1 ->
  run (shareImageViaWebShare payload) env t =
  (Ret (ShareFail instagram Reason.not_supported None),
   (t1 ++ [EvCanShare [file]])%list).
Proof.
  intros Hwin Hnav Hshare Hkind Hfile Href.
  now apply shareImageViaWebShare_refused with w n share_fn.
Qed.

Lemma webShare_canShare_refusal_witness :
  run (shareImageViaWebShare Sample.imagePayload)
      (Sample.browser Sample.goodWindow
         (Scenario.navigatorWith (Callable (fun _ _ => Ret (VBool false)))
                                 (Ret tt))
         Sample.openFetch) [] =
  (Ret (ShareFail instagram Reason.not_supported None),
   [EvFetch Sample.cdnUrl; EvResponseBlob Sample.cdnUrl;
    EvCanShare [Sample.sharedFile]]).
Proof.
  apply (webShare_canShare_refusal
           (Sample.browser Sample.goodWindow
              (Scenario.navigatorWith (Callable (fun _ _ => Ret (VBool false)))
                                      (Ret tt))
              Sample.openFetch)
           Sample.goodWindow
           (Scenario.navigatorWith (Callable (fun _ _ => Ret (VBool false)))
                                   (Ret tt))
           (fun _ _ => Ret tt) Sample.imagePayload Sample.sharedFile []
           [EvFetch Sample.cdnUrl; EvResponseBlob Sample.cdnUrl]
           eq_refl eq_refl eq_refl eq_refl eq_refl).
  eexists. split; reflexivity.
Defined.

(** X5.  In every other case the probe does not stop the strategy:
    [canShare] missing, nullish or not a function, [canShare] throwing,
    or [canShare] answering anything but [false] ([true], [undefined],
    [0], ...).  [navigator.share] is then called once with the file, and
    its outcome is the result: [ok] with method [web_share] when it
    resolves, a failure carrying the thrown value when it rejects. *)
Theorem webShare_canShare_optimistic
    (env : Env) (w : Window) (n : Navigator)
    (share_fn : Trace -> ShareData -> Outcome unit)
    (payload : SharePayload) (file : File) (t t1 : Trace) :
  env_window env = Some w ->
  env_navigator env = Some n ->
  navigator_share n = Callable share_fn ->
  kind payload = "image" ->
  run (fileFromUrl (imageUrl payload) (filename payload) None) env t =
    (Ret file, t1) ->
  ~ CanShareRefuses n file t1 ->
  let t2 := (t1 ++ canShareCalls n file)%list in
  let data := {| share_files := [file];
                 share_title := title payload;
                 share_text := text payload |} in
  (share_fn t2 data = Ret tt ->
   run (shareImageViaWebShare payload) env t =
   (Ret (ShareOk instagram web_share None), (t2 ++ [EvShare data])%list)) /\
  (forall e, share_fn t2 data = Throw e ->
   exists reason,
     run (shareImageViaWebShare payload) env t =
     (Ret (ShareFail instagram reason (Some e)), (t2 ++ [EvShare data])%list) /\
     (reason = Reason.user_cancelled \/ reason = Reason.unknown)).
Proof.
  intros Hwin Hnav Hshare Hkind Hfile Hno t2 data.
  pose proof (shareImageViaWebShare_proceeds env w n share_fn payload file
                t t1 Hwin Hnav Hshare Hkind Hfile Hno) as Hrun.
  cbn zeta in Hrun. change (shareDataFor payload file) with data in Hrun.
  fold t2 in Hrun. split.
  - intros Hs. now rewrite Hs in Hrun.
  - intros e Hs. rewrite Hs in Hrun.
    eexists. split; [exact Hrun |]. destruct (isAbortError e); auto.
Qed.

Lemma webShare_canShare_optimistic_witness :
  run (shareImageViaWebShare Sample.imagePayload)
      (Sample.browser Sample.goodWindow
         (Scenario.navigatorWith
            (Callable (fun _ _ => Throw Sample.securityError)) (Ret tt))
         Sample.openFetch) [] =
    (Ret (ShareOk instagram web_share None),
     [EvFetch Sample.cdnUrl; EvResponseBlob Sample.cdnUrl;
      EvCanShare [Sample.sharedFile];
      EvShare (shareDataFor Sample.imagePayload Sample.sharedFile)]) /\
  run (shareImageViaWebShare Sample.imagePayload)
      (Sample.browser Sample.goodWindow
         (Scenario.navigatorWith Absent (Ret tt)) Sample.openFetch) [] =
    (Ret (ShareOk instagram web_share None),
     [EvFetch Sample.cdnUrl; EvResponseBlob Sample.cdnUrl;
      EvShare (shareDataFor Sample.imagePayload Sample.sharedFile)]) /\
  run (shareImageViaWebShare Sample.imagePayload)
      (Sample.browser Sample.goodWindow
         (Scenario.navigatorWith (Callable (fun _ _ => Ret VUndefined)) (Ret tt))
         Sample.openFetch) [] =
    (Ret (ShareOk instagram web_share None),
     [EvFetch Sample.cdnUrl; EvResponseBlob Sample.cdnUrl;
      EvCanShare [Sample.sharedFile];
      EvShare (shareDataFor Sample.imagePayload Sample.sharedFile)]).
Proof.
  split; [| split].
  - assert (Hno : ~ CanShareRefuses
                      (Scenario.navigatorWith
                         (Callable (fun _ _ => Throw Sample.securityError))
                         (Ret tt))
                      Sample.sharedFile
                      [EvFetch Sample.cdnUrl; EvResponseBlob Sample.cdnUrl]).
    { intros (f & Hf & Hv). cbn in Hf. inversion Hf; subst. discriminate. }
    apply (proj1 (webShare_canShare_optimistic
             (Sample.browser Sample.goodWindow
                (Scenario.navigatorWith
                   (Callable (fun _ _ => Throw Sample.securityError)) (Ret tt))
                Sample.openFetch)
             Sample.goodWindow
             (Scenario.navigatorWith
                (Callable (fun _ _ => Throw Sample.securityError)) (Ret tt))
             (fun _ _ => Ret tt) Sample.imagePayload Sample.sharedFile []
             [EvFetch Sample.cdnUrl; EvResponseBlob Sample.cdnUrl]
             eq_refl eq_refl eq_refl eq_refl eq_refl Hno));
      reflexivity.
  - assert (Hno : ~ CanShareRefuses
                      (Scenario.navigatorWith Absent (Ret tt))
                      Sample.sharedFile
                      [EvFetch Sample.cdnUrl; EvResponseBlob Sample.cdnUrl]).
    { intros (f & Hf & Hv). discriminate. }
    apply (proj1 (webShare_canShare_optimistic
             (Sample.browser Sample.goodWindow
                (Scenario.navigatorWith Absent (Ret tt)) Sample.openFetch)
             Sample.goodWindow (Scenario.navigatorWith Absent (Ret tt))
             (fun _ _ => Ret tt) Sample.imagePayload Sample.sharedFile []
             [EvFetch Sample.cdnUrl; EvResponseBlob Sample.cdnUrl]
             eq_refl eq_refl eq_refl eq_refl eq_refl Hno));
      reflexivity.
  - assert (Hno : ~ CanShareRefuses
                      (Scenario.navigatorWith
                         (Callable (fun _ _ => Ret VUndefined)) (Ret tt))
                      Sample.sharedFile
                      [EvFetch Sample.cdnUrl; EvResponseBlob Sample.cdnUrl]).
    { intros (f & Hf & Hv). cbn in Hf. inversion Hf; subst. discriminate. }
    apply (proj1 (webShare_canShare_optimistic
             (Sample.browser Sample.goodWindow
                (Scenario.navigatorWith
                   (Callable (fun _ _ => Ret VUndefined)) (Ret tt))
                Sample.openFetch)
             Sample.goodWindow
             (Scenario.navigatorWith
                (Callable (fun _ _ => Ret VUndefined)) (Ret tt))
             (fun _ _ => Ret tt) Sample.imagePayload Sample.sharedFile []
             [EvFetch Sample.cdnUrl; EvResponseBlob Sample.cdnUrl]
             eq_refl eq_refl eq_refl eq_refl eq_refl Hno));
      reflexivity.
Defined.

Lemma fileFromUrl_plain_returns env t url filename f t1 :
  run (fileFromUrl url filename None) env t = (Ret f, t1) ->
  exists b,
    run (tryFetchBlob url) env t = (Ret (Some b), t1) /\
    __fetchedVia f = Some direct /\
    file_bytes f = blob_bytes b /\
    file_name f = safeName filename (extensionFromContentType (blob_type b)).
Proof.
  intros H.
  destruct (tryFetchBlob_returns env t url) as (ob & t' & evs & Hrun & _ & _).
  destruct ob as [b |].
  - destruct (fileFromUrl_direct env t url filename None b t' Hrun)
      as (f' & Hf & Hvia & Hbytes & Hname).
    rewrite Hf in H. inversion H; subst. exists b. auto.
  - rewrite (fileFromUrl_no_fallback env t url filename t' Hrun) in H.
    discriminate.
Qed.

(** X6.  A success of the Web Share strategy means the share sheet was
    really invoked: the result has method [web_share] and no details, the
    last call of the run is [navigator.share], and what it received is
    exactly one file, fetched directly from [imageUrl] (never through the
    optimizer) and named by the safe-name rule, with the payload's title
    and text. *)
Theorem webShare_success_means_shared
    (env : Env) (payload : SharePayload) (t t' : Trace)
    (p : ShareProviderId) (m : ShareMethod) (d : option ShareDetails) :
  run (shareImageViaWebShare payload) env t = (Ret (ShareOk p m d), t') ->
  m = web_share /\ d = None /\
  exists b t1 t2 file,
    run (tryFetchBlob (imageUrl payload)) env t = (Ret (Some b), t1) /\
    file_bytes file = blob_bytes b /\
    file_name file =
      safeName (filename payload) (extensionFromContentType (blob_type b)) /\
    __fetchedVia file = Some direct /\
    t' = (t2 ++ [EvShare {| share_files := [file];
                            share_title := title payload;
                            share_text := text payload |}])%list.
Proof.
  intros Hrun.
  destruct (env_window env) as [w |] eqn:Hwin;
    [| rewrite shareImageViaWebShare_not_in_browser in Hrun by auto;
       discriminate].
  destruct (env_navigator env) as [n |] eqn:Hnav;
    [| rewrite shareImageViaWebShare_not_in_browser in Hrun by auto;
       discriminate].
  destruct (navigator_share n) as [| | | share_fn] eqn:Hshare;
    try (rewrite (shareImageViaWebShare_no_share env w n Hwin Hnav payload t)
          in Hrun by (rewrite Hshare; discriminate);
         discriminate).
  destruct (String.eqb_spec (kind payload) "image") as [Hkind | Hkind];
    [| rewrite (shareImageViaWebShare_other_kind env w n Hwin Hnav payload
                  share_fn Hshare t Hkind) in Hrun; discriminate].
  destruct (fileFromUrl_outcome env t (imageUrl payload) (filename payload) None)
    as (o & t1 & Hf).
  rewrite (shareImageViaWebShare_after_fetch env w n Hwin Hnav payload
             share_fn Hshare Hkind t o t1 Hf) in Hrun.
  destruct o as [file | e]; [| discriminate].
  destruct (canShareStep_returns env n file t1) as (b & t2 & Hc).
  rewrite Hc in Hrun. destruct b; [discriminate |]. cbn zeta in Hrun.
  destruct (share_fn t2 (shareDataFor payload file)) as [[] | e];
    [| destruct (isAbortError e); discriminate].
  inversion Hrun; subst. split; [reflexivity | split; [reflexivity |]].
  destruct (fileFromUrl_plain_returns env t _ _ file t1 Hf)
    as (b & Hb & Hvia & Hbytes & Hname).
  exists b, t1, t2, file. auto 6.
Qed.

Lemma webShare_success_means_shared_witness :
  web_share = web_share /\ @None ShareDetails = None /\
  exists b t1 t2 file,
    run (tryFetchBlob (imageUrl Sample.imagePayload))
        (Sample.browser Sample.goodWindow
                        (Sample.fullNavigator (Ret tt) (Ret tt))
                        Sample.openFetch) [] = (Ret (Some b), t1) /\
    file_bytes file = blob_bytes b /\
    file_name file =
      safeName (filename Sample.imagePayload)
               (extensionFromContentType (blob_type b)) /\
    __fetchedVia file = Some direct /\
    [EvFetch Sample.cdnUrl; EvResponseBlob Sample.cdnUrl;
     EvCanShare [Sample.sharedFile];
     EvShare (shareDataFor Sample.imagePayload Sample.sharedFile)] =
    (t2 ++ [EvShare {| share_files := [file];
                       share_title := title Sample.imagePayload;
                       share_text := text Sample.imagePayload |}])%list.
Proof.
  apply (webShare_success_means_shared
           (Sample.browser Sample.goodWindow
                           (Sample.fullNavigator (Ret tt) (Ret tt))
                           Sample.openFetch)
           Sample.imagePayload [] _ instagram web_share None).
  reflexivity.
Defined.

(* ------------------------------------------------------------------ *)
(** ** More on the image fetcher *)

(** X7.  The direct fetch comes first and, when it yields a blob, is the
    only request: whatever the options, [fileFromUrl] returns a file with
    the blob's bytes, tagged [direct], and the trace is that of the single
    fetch, so the optimizer is never contacted; [prepareShareImageFile]
    returns the same file.  A blob without a content type gives a file of
    type application/octet-stream, named [shared-image] when no file name
    was asked for. *)
Theorem fileFromUrl_direct_first
    (env : Env) (t t1 : Trace) (url : string) (filename : option string)
    (options : option FileFromUrlOptions) (b : Blob) :
  run (tryFetchBlob url) env t = (Ret (Some b), t1) ->
  exists f,
    run (fileFromUrl url filename options) env t = (Ret f, t1) /\
    run (prepareShareImageFile url filename) env t = (Ret f, t1) /\
    __fetchedVia f = Some direct /\
    file_bytes f = blob_bytes b /\
    file_name f = safeName filename (extensionFromContentType (blob_type b)) /\
    (blob_type b = "" ->
     file_type f = "application/octet-stream" /\
     (filename = None -> file_name f = "shared-image")).
Proof.
  intros H. unfold prepareShareImageFile, fileFromUrl.
  rewrite !(run_bind_ret _ _ env t _ _ H), fileFromBlob_run.
  eexists. split; [reflexivity |]. split; [reflexivity |]. cbn.
  split; [reflexivity |]. split; [reflexivity |]. split; [reflexivity |].
  intros Hb. rewrite Hb. split; [reflexivity |]. now intros ->.
Qed.

Lemma fileFromUrl_direct_first_witness :
  exists f,
    run (fileFromUrl Sample.cdnUrl None fallbackAllowed)
        (Sample.browser Sample.goodWindow Sample.bareNavigator Sample.openFetch)
        [] =
    (Ret f, [EvFetch Sample.cdnUrl; EvResponseBlob Sample.cdnUrl]) /\
    __fetchedVia f = Some direct.
Proof.
  destruct (fileFromUrl_direct_first
              (Sample.browser Sample.goodWindow Sample.bareNavigator
                              Sample.openFetch)
              [] [EvFetch Sample.cdnUrl; EvResponseBlob Sample.cdnUrl]
              Sample.cdnUrl None fallbackAllowed Sample.pngBlob eq_refl)
    as (f & Hrun & _ & Hvia & _).
  exists f. split; assumption.
Defined.

(** X8.  The optimizer is tried only when the caller asked for it and a
    [window] exists.  Otherwise — option missing, flag unset or false, or
    no [window] as on a server — a failed direct fetch is final:
    [fileFromUrl] throws its "Failed to fetch image" error after that one
    request, without building the optimizer URL and without touching
    [window]. *)
Theorem fileFromUrl_fallback_guard
    (env : Env) (t t1 : Trace) (url : string) (filename : option string)
    (options : option FileFromUrlOptions) :
  fallbackRequested options = false \/ env_window env = None ->
  run (tryFetchBlob url) env t = (Ret None, t1) ->
  run (fileFromUrl url filename options) env t = (Throw failedToFetch, t1).
Proof.
  intros Hguard H. unfold fileFromUrl.
  rewrite (run_bind_ret _ _ env t _ _ H).
  fold (fallbackRequested options).
  unfold run, bind, ask.
  destruct Hguard as [-> | ->]; [reflexivity |].
  now rewrite andb_false_r.
Qed.

Lemma fileFromUrl_fallback_guard_witness :
  run (prepareShareImageFile Sample.cdnUrl None) Scenario.server [] =
    (Throw failedToFetch, [EvFetch Sample.cdnUrl]) /\
  run (fileFromUrl Sample.cdnUrl None
         (Some {| allowNextImageOptimizerFallback := None |}))
      (Sample.browser Sample.goodWindow Sample.bareNavigator
                      Sample.corsBlockedFetch) [] =
    (Throw failedToFetch, [EvFetch Sample.cdnUrl]).
Proof.
  split.
  - apply (fileFromUrl_fallback_guard Scenario.server []
             [EvFetch Sample.cdnUrl] Sample.cdnUrl None fallbackAllowed
             (or_intror eq_refl) eq_refl).
  - apply (fileFromUrl_fallback_guard
             (Sample.browser Sample.goodWindow Sample.bareNavigator
                             Sample.corsBlockedFetch)
             [] [EvFetch Sample.cdnUrl] Sample.cdnUrl None
             (Some {| allowNextImageOptimizerFallback := None |})
             (or_introl eq_refl) eq_refl).
Defined.

(** X9.  [tryFetchBlob] never throws and makes at most one request.  It
    yields [null] when [fetch] is not defined (nothing is called), when
    [fetch] rejects, when no response object comes back, when the
    response is not [ok] (its body is then not read), and when reading the
    body fails; it yields the blob when the response is [ok] and the body
    is read. *)
Theorem tryFetchBlob_cases (env : Env) (t : Trace) (url : string) :
  let t1 := (t ++ [EvFetch url])%list in
  let t2 := (t ++ [EvFetch url; EvResponseBlob url])%list in
  (exists ob t' evs,
     run (tryFetchBlob url) env t = (Ret ob, t') /\
     extends t t' evs /\ oneFetch url evs) /\
  (env_fetch env = None ->
   run (tryFetchBlob url) env t = (Ret None, t)) /\
  (forall f, env_fetch env = Some f ->
     (forall e, f t url = Throw e ->
        run (tryFetchBlob url) env t = (Ret None, t1)) /\
     (f t url = Ret None ->
        run (tryFetchBlob url) env t = (Ret None, t1)) /\
     (forall r, f t url = Ret (Some r) ->
        (response_ok r = false ->
           run (tryFetchBlob url) env t = (Ret None, t1)) /\
        (forall e, response_ok r = true -> response_blob r t1 = Throw e ->
           run (tryFetchBlob url) env t = (Ret None, t2)) /\
        (forall b, response_ok r = true -> response_blob r t1 = Ret b ->
           run (tryFetchBlob url) env t = (Ret (Some b), t2)))).
Proof.
  intros t1 t2. split; [apply tryFetchBlob_returns |].
  assert (Ht2 : t2 = (t1 ++ [EvResponseBlob url])%list)
    by (unfold t1, t2; now rewrite <- app_assoc).
  split.
  - intros Hf. unfold tryFetchBlob, fetch_cors. js_unfold. now rewrite Hf.
  - intros f Hf. repeat split.
    + intros e He. unfold tryFetchBlob, fetch_cors. js_unfold.
      now rewrite Hf, He.
    + intros He. unfold tryFetchBlob, fetch_cors. js_unfold.
      now rewrite Hf, He.
    + intros Hok. unfold tryFetchBlob, fetch_cors. js_unfold.
      now rewrite Hf, H, Hok.
    + intros e Hok Hb. unfold tryFetchBlob, fetch_cors. js_unfold.
      rewrite Hf, H, Hok. cbn. fold t1. now rewrite Hb, Ht2.
    + intros b Hok Hb. unfold tryFetchBlob, fetch_cors. js_unfold.
      rewrite Hf, H, Hok. cbn. fold t1. now rewrite Hb, Ht2.
Qed.

Lemma tryFetchBlob_cases_witness :
  run (tryFetchBlob Sample.cdnUrl)
      (Sample.browser Sample.goodWindow Sample.bareNavigator
         (fun _ _ => Ret (Some {| response_ok := false;
                                  response_blob := fun _ => Ret Sample.pngBlob |})))
      [] = (Ret None, [EvFetch Sample.cdnUrl]) /\
  run (tryFetchBlob Sample.cdnUrl)
      (Sample.browser Sample.goodWindow Sample.bareNavigator Sample.openFetch)
      [] = (Ret (Some Sample.pngBlob),
            [EvFetch Sample.cdnUrl; EvResponseBlob Sample.cdnUrl]).
Proof.
  split.
  - apply (proj1 (proj2 (proj2 (proj2 (proj2
             (tryFetchBlob_cases
                (Sample.browser Sample.goodWindow Sample.bareNavigator
                   (fun _ _ =>
                      Ret (Some {| response_ok := false;
                                   response_blob := fun _ => Ret Sample.pngBlob |})))
                [] Sample.cdnUrl)) _ eq_refl)) _ eq_refl)).
    reflexivity.
  - apply (proj2 (proj2 (proj2 (proj2 (proj2 (proj2
             (tryFetchBlob_cases
                (Sample.browser Sample.goodWindow Sample.bareNavigator
                                Sample.openFetch)
                [] Sample.cdnUrl)) _ eq_refl)) _ eq_refl)));
      reflexivity.
Defined.

(* ------------------------------------------------------------------ *)
(** ** More on the direct strategy *)

Section ClipboardStep.

Variables (env : Env) (w : Window) (n : Navigator).
Hypothesis Hwin : env_window env = Some w.
Hypothesis Hnav : env_navigator env = Some n.

Variable options : DirectOptions.t.

Lemma directClipboardStep_supported c wr k t :
  skipped options = false ->
  navigator_clipboard n = Some c ->
  clipboard_write c = Callable wr ->
  env_ClipboardItem env = Some k ->
  run (directClipboardStep options) env t =
  match run (directPrepared options) env t with
  | (Throw _, t1) => (Ret (false, Clipboard.failed, None), t1)
  | (Ret f, t1) =>
      match run (tryWriteImageToClipboard f) env t1 with
      | (Ret ok, t2) =>
          (Ret (ok, if ok then Clipboard.copied else Clipboard.failed,
                __fetchedVia f), t2)
      | (Throw _, t2) => (Ret (false, Clipboard.failed, None), t2)
      end
  end.
Proof.
  intros Hs Hc Hwr Hk. unfold directClipboardStep. fold (skipped options).
  rewrite Hs. cbn [negb].
  rewrite !(run_bind_ret _ _ env t _ _
              (isClipboardWriteSupported_present env n t Hnav c wr k Hc Hwr Hk)).
  unfold directPrepared, fallbackAllowed. js_unfold.
  destruct (DirectOptions.file options) as [f |].
  - destruct (tryWriteImageToClipboard f env t) as [[ok | e] t2]; reflexivity.
  - destruct (fileFromUrl _ _ _ env t) as [[f | e] t1]; [| reflexivity].
    destruct (tryWriteImageToClipboard f env t1) as [[ok | e] t2]; reflexivity.
Qed.

(** What the clipboard step can record. *)
Lemma directClipboardStep_invariant t ok status via t1 :
  run (directClipboardStep options) env t = (Ret (ok, status, via), t1) ->
  (ok = true <-> status = Clipboard.copied) /\
  (status = Clipboard.skipped <-> skipped options = true) /\
  (status = Clipboard.not_supported -> via = None /\ t1 = t) /\
  (status = Clipboard.skipped -> via = None /\ t1 = t).
Proof.
  unfold directClipboardStep. fold (skipped options).
  destruct (skipped options) eqn:Hs; cbn [negb].
  - intros H. inversion H; subst.
    repeat split; try congruence; auto.
  - destruct (isClipboardWriteSupported_returns env n t Hnav) as [b Hb].
    rewrite !(run_bind_ret _ _ env t _ _ Hb).
    destruct b.
    + js_unfold.
      destruct (DirectOptions.file options) as [f |].
      * destruct (tryWriteImageToClipboard f env t) as [[[|] | e] t2];
          intros H; inversion H; subst;
          repeat split; try congruence; try discriminate.
      * destruct (fileFromUrl _ _ _ env t) as [[f | e] t1'].
        -- destruct (tryWriteImageToClipboard f env t1') as [[[|] | e] t2];
             intros H; inversion H; subst;
             repeat split; try congruence; try discriminate.
        -- intros H; inversion H; subst;
             repeat split; try congruence; try discriminate.
    + intros H. inversion H; subst.
      repeat split; try congruence; try discriminate.
Qed.

End ClipboardStep.

(** X10.  A fetch that fails inside the clipboard step does not stop the
    direct strategy.  In a page that can write images to the clipboard,
    with no preloaded file, whatever [fileFromUrl] throws (its own error,
    or the [TypeError] of a page whose origin cannot be a base URL) is
    swallowed: the step records [failed] with no [fetchedVia], no
    clipboard call is made, and the deep link is opened next; if it opens,
    the result is [ok] with method [deep_link]. *)
Theorem direct_swallows_fetch_failure
    (env : Env) (w : Window) (n : Navigator) (c : ClipboardObject)
    (wr k : Trace -> string -> Blob -> Outcome unit)
    (options : DirectOptions.t) (t t1 : Trace) (e : JsVal) :
  env_window env = Some w ->
  env_navigator env = Some n ->
  navigator_clipboard n = Some c ->
  clipboard_write c = Callable wr ->
  env_ClipboardItem env = Some k ->
  skipped options = false ->
  DirectOptions.file options = None ->
  run (fileFromUrl (DirectOptions.imageUrl options)
                   (DirectOptions.filename options) fallbackAllowed) env t =
    (Throw e, t1) ->
  run (directClipboardStep options) env t =
    (Ret (false, Clipboard.failed, None), t1) /\
  forall t2,
    run (tryOpenDeepLink (deepLinkFor options)) env t1 = (Ret true, t2) ->
    run (shareImageToInstagramDirect options) env t =
    (Ret (ShareOk instagram deep_link
            (Some {| clipboard := Clipboard.failed;
                     deepLinkOpened := Some true;
                     fetchedVia := None |})), t2).
Proof.
  intros Hwin Hnav Hc Hwr Hk Hs Hfile Hfetch.
  assert (Hstep : run (directClipboardStep options) env t =
                  (Ret (false, Clipboard.failed, None), t1)).
  { rewrite (directClipboardStep_supported env n Hnav options c wr k t
               Hs Hc Hwr Hk).
    unfold directPrepared. rewrite Hfile. now rewrite Hfetch. }
  split; [exact Hstep |].
  intros t2 Ho.
  exact (shareImageToInstagramDirect_run env w n Hwin Hnav options t
           false Clipboard.failed None t1 true t2 Hstep Ho).
Qed.

Lemma direct_swallows_fetch_failure_witness :
  run (shareImageToInstagramDirect (Sample.directOptions None))
      (Sample.browser Sample.goodWindow
                      (Sample.fullNavigator (Ret tt) (Ret tt))
                      Sample.deadFetch) [] =
    (Ret (ShareOk instagram deep_link
            (Some {| clipboard := Clipboard.failed;
                     deepLinkOpened := Some true;
                     fetchedVia := None |})),
     [EvFetch Sample.cdnUrl;
      EvNewURL "/_next/image" Sample.pageOrigin;
      EvFetch Sample.optimizerUrl;
      EvLocationAssign "instagram://story-camera"]) /\
  run (shareImageToInstagramDirect (Sample.directOptions None))
      (Sample.browser Scenario.sandboxedWindow
                      (Sample.fullNavigator (Ret tt) (Ret tt))
                      Sample.deadFetch) [] =
    (Ret (ShareOk instagram deep_link
            (Some {| clipboard := Clipboard.failed;
                     deepLinkOpened := Some true;
                     fetchedVia := None |})),
     [EvFetch Sample.cdnUrl;
      EvNewURL "/_next/image" "null";
      EvLocationAssign "instagram://story-camera"]).
Proof.
  split.
  - apply (proj2 (direct_swallows_fetch_failure
             (Sample.browser Sample.goodWindow
                             (Sample.fullNavigator (Ret tt) (Ret tt))
                             Sample.deadFetch)
             Sample.goodWindow (Sample.fullNavigator (Ret tt) (Ret tt))
             {| clipboard_write := Callable (fun _ _ _ => Ret tt) |}
             (fun _ _ _ => Ret tt) (fun _ _ _ => Ret tt)
             (Sample.directOptions None) []
             [EvFetch Sample.cdnUrl;
              EvNewURL "/_next/image" Sample.pageOrigin;
              EvFetch Sample.optimizerUrl]
             failedToFetch
             eq_refl eq_refl eq_refl eq_refl eq_refl eq_refl eq_refl eq_refl)).
    reflexivity.
  - apply (proj2 (direct_swallows_fetch_failure
             (Sample.browser Scenario.sandboxedWindow
                             (Sample.fullNavigator (Ret tt) (Ret tt))
                             Sample.deadFetch)
             Scenario.sandboxedWindow (Sample.fullNavigator (Ret tt) (Ret tt))
             {| clipboard_write := Callable (fun _ _ _ => Ret tt) |}
             (fun _ _ _ => Ret tt) (fun _ _ _ => Ret tt)
             (Sample.directOptions None) []
             [EvFetch Sample.cdnUrl; EvNewURL "/_next/image" "null"]
             (Js.TypeError "Invalid base URL")
             eq_refl eq_refl eq_refl eq_refl eq_refl eq_refl eq_refl eq_refl)).
    reflexivity.
Defined.

(** X11.  With a preloaded file the clipboard step fetches nothing: its
    only calls are the [ClipboardItem] construction and, if that returns,
    the clipboard write, both for the preloaded file's bytes under the
    inferred MIME type.  The step records [copied] when both return and
    [failed] when either throws, and in both cases reports the file's own
    [__fetchedVia] tag. *)
Theorem direct_preloaded_file
    (env : Env) (w : Window) (n : Navigator) (c : ClipboardObject)
    (wr k : Trace -> string -> Blob -> Outcome unit)
    (options : DirectOptions.t) (f : File) (t : Trace) :
  env_window env = Some w ->
  env_navigator env = Some n ->
  navigator_clipboard n = Some c ->
  clipboard_write c = Callable wr ->
  env_ClipboardItem env = Some k ->
  skipped options = false ->
  DirectOptions.file options = Some f ->
  let mime := clipboardMime f in
  let blob := sliceAll f mime in
  let t1 := (t ++ [EvNewClipboardItem mime blob])%list in
  let t2 := (t ++ [EvNewClipboardItem mime blob; EvClipboardWrite mime blob])%list in
  run (directClipboardStep options) env t =
  match k t mime blob with
  | Throw _ => (Ret (false, Clipboard.failed, __fetchedVia f), t1)
  | Ret _ =>
      match wr t1 mime blob with
      | Throw _ => (Ret (false, Clipboard.failed, __fetchedVia f), t2)
      | Ret _ => (Ret (true, Clipboard.copied, __fetchedVia f), t2)
      end
  end.
Proof.
  intros Hwin Hnav Hc Hwr Hk Hs Hfile mime blob t1 t2.
  rewrite (directClipboardStep_supported env n Hnav options c wr k t
             Hs Hc Hwr Hk).
  unfold directPrepared. rewrite Hfile. rewrite run_ret.
  rewrite (tryWriteImageToClipboard_run env n t Hnav c wr k f Hc Hwr Hk).
  cbn zeta. fold mime blob t1 t2.
  destruct (k t mime blob); [| reflexivity].
  destruct (wr t1 mime blob); reflexivity.
Qed.

Lemma direct_preloaded_file_witness :
  run (directClipboardStep (Scenario.withFile Scenario.preloaded))
      (Sample.browser Sample.goodWindow
                      (Sample.fullNavigator (Ret tt) (Ret tt))
                      Sample.deadFetch) [] =
  (Ret (true, Clipboard.copied, Some next_image_optimizer),
   [EvNewClipboardItem "image/png" Sample.pngBlob;
    EvClipboardWrite "image/png" Sample.pngBlob]).
Proof.
  apply (direct_preloaded_file
           (Sample.browser Sample.goodWindow
                           (Sample.fullNavigator (Ret tt) (Ret tt))
                           Sample.deadFetch)
           Sample.goodWindow (Sample.fullNavigator (Ret tt) (Ret tt))
           {| clipboard_write := Callable (fun _ _ _ => Ret tt) |}
           (fun _ _ _ => Ret tt) (fun _ _ _ => Ret tt)
           (Scenario.withFile Scenario.preloaded) Scenario.preloaded []
           eq_refl eq_refl eq_refl eq_refl eq_refl eq_refl eq_refl).
Defined.

Lemma shareImageToInstagramDirect_success
    (env : Env) (options : DirectOptions.t) (t t' : Trace)
    (p : ShareProviderId) (m : ShareMethod) (d : option ShareDetails) :
  run (shareImageToInstagramDirect options) env t = (Ret (ShareOk p m d), t') ->
  exists details,
    d = Some details /\
    deepLinkOpened details = Some true /\
    (m = deep_link_clipboard <-> clipboard details = Clipboard.copied) /\
    (m = deep_link <-> clipboard details <> Clipboard.copied) /\
    (clipboard details = Clipboard.skipped <-> skipped options = true) /\
    (clipboard details = Clipboard.not_supported \/
     clipboard details = Clipboard.skipped -> fetchedVia details = None).
Proof.
  intros Hrun.
  destruct (env_window env) as [w |] eqn:Hwin;
    [| rewrite shareImageToInstagramDirect_not_in_browser in Hrun by auto;
       discriminate].
  destruct (env_navigator env) as [n |] eqn:Hnav;
    [| rewrite shareImageToInstagramDirect_not_in_browser in Hrun by auto;
       discriminate].
  destruct (directClipboardStep_returns env n Hnav options t)
    as ([[ok status] via] & t1 & Hc).
  destruct (tryOpenDeepLink_returns env t1 (deepLinkFor options))
    as (opened & t2 & Ho).
  rewrite (shareImageToInstagramDirect_run env w n Hwin Hnav options t
             ok status via t1 opened t2 Hc Ho) in Hrun.
  destruct opened; [| discriminate]. inversion Hrun; subst.
  destruct (directClipboardStep_invariant env n Hnav options t ok status via
              t1 Hc) as (Hok & Hskip & Hns & Hsk).
  eexists. split; [reflexivity |]. cbn.
  split; [reflexivity |].
  split; [| split; [| split; [exact Hskip |]]].
  - destruct ok; split; intros H; try discriminate; try reflexivity.
    + now apply Hok.
    + apply Hok in H. discriminate.
  - destruct ok; split; intros H; try discriminate; try reflexivity.
    + exfalso. apply H. now apply Hok.
    + intros Hcop. apply Hok in Hcop. discriminate.
  - intros [H | H]; [now apply Hns | now apply Hsk].
Qed.

(** X12.  Every success of the direct strategy, in any environment, has
    details, with [deepLinkOpened] true.  Its method is
    [deep_link_clipboard] exactly when the recorded clipboard status is
    [copied], and [deep_link] otherwise; the status is [skipped] exactly
    when [skipClipboard] was set; and with status [not_supported] or
    [skipped] no [fetchedVia] is reported. *)
Theorem direct_success_invariant
    (env : Env) (options : DirectOptions.t) (t t' : Trace)
    (p : ShareProviderId) (m : ShareMethod) (d : option ShareDetails) :
  run (shareImageToInstagramDirect options) env t = (Ret (ShareOk p m d), t') ->
  exists details,
    d = Some details /\
    deepLinkOpened details = Some true /\
    (m = deep_link_clipboard <-> clipboard details = Clipboard.copied) /\
    (m = deep_link <-> clipboard details <> Clipboard.copied) /\
    (clipboard details = Clipboard.skipped <-> skipped options = true) /\
    (clipboard details = Clipboard.not_supported \/
     clipboard details = Clipboard.skipped -> fetchedVia details = None).
Proof. apply shareImageToInstagramDirect_success. Qed.

Lemma direct_success_invariant_witness :
  exists details,
    Some {| clipboard := Clipboard.copied;
            deepLinkOpened := Some true;
            fetchedVia := Some next_image_optimizer |} = Some details /\
    deepLinkOpened details = Some true /\
    (deep_link_clipboard = deep_link_clipboard <->
     clipboard details = Clipboard.copied) /\
    (deep_link_clipboard = deep_link <->
     clipboard details <> Clipboard.copied) /\
    (clipboard details = Clipboard.skipped <->
     skipped (Scenario.withFile Scenario.preloaded) = true) /\
    (clipboard details = Clipboard.not_supported \/
     clipboard details = Clipboard.skipped -> fetchedVia details = None).
Proof.
  apply (direct_success_invariant
           (Sample.browser Sample.goodWindow
                           (Sample.fullNavigator (Ret tt) (Ret tt))
                           Sample.deadFetch)
           (Scenario.withFile Scenario.preloaded) []
           [EvNewClipboardItem "image/png" Sample.pngBlob;
            EvClipboardWrite "image/png" Sample.pngBlob;
            EvLocationAssign "instagram://app"] instagram).
  reflexivity.
Defined.

(** X13.  The capability probe and the writer agree.  In a page where
    image clipboard writes are not available, [tryWriteImageToClipboard]
    returns [false] without calling anything; and whenever it returns
    [true], [isClipboardWriteSupported] answers [true] in the same
    page. *)
Theorem clipboard_probe_agrees_with_writer
    (env : Env) (n : Navigator) (file : File) (t : Trace) :
  env_navigator env = Some n ->
  (ClipboardWriteAbsent env n ->
   run isClipboardWriteSupported env t = (Ret false, t) /\
   run (tryWriteImageToClipboard file) env t = (Ret false, t)) /\
  (forall t',
     run (tryWriteImageToClipboard file) env t = (Ret true, t') ->
     run isClipboardWriteSupported env t = (Ret true, t)).
Proof.
  intros Hnav. split.
  - intros Habs. split; [now apply isClipboardWriteSupported_absent with n |].
    unfold tryWriteImageToClipboard, global_navigator. js_unfold. rewrite Hnav.
    destruct (navigator_clipboard n) as [c |] eqn:Hc; [| reflexivity].
    destruct (clipboard_write c) as [| | | wr] eqn:Hwr; try reflexivity.
    destruct Habs as [Hno | ->]; [| reflexivity].
    exfalso. apply Hno. now exists c, wr.
  - intros t' Hrun.
    destruct (navigator_clipboard n) as [c |] eqn:Hc.
    + destruct (clipboard_write c) as [| | | wr] eqn:Hwr;
        try (unfold tryWriteImageToClipboard, global_navigator in Hrun;
             js_unfold; rewrite Hnav, Hc, Hwr in Hrun; discriminate).
      destruct (env_ClipboardItem env) as [k |] eqn:Hk.
      * now apply isClipboardWriteSupported_present with n c wr k.
      * unfold tryWriteImageToClipboard, global_navigator in Hrun.
        js_unfold. rewrite Hnav, Hc, Hwr, Hk in Hrun. discriminate.
    + unfold tryWriteImageToClipboard, global_navigator in Hrun.
      js_unfold. rewrite Hnav, Hc in Hrun. discriminate.
Qed.

Lemma clipboard_probe_agrees_with_writer_witness :
  run (tryWriteImageToClipboard Sample.sharedFile) Sample.legacyBrowser [] =
    (Ret false, []) /\
  run isClipboardWriteSupported
      (Sample.browser Sample.goodWindow
                      (Sample.fullNavigator (Ret tt) (Ret tt))
                      Sample.deadFetch) [] = (Ret true, []).
Proof.
  split.
  - apply (proj1 (clipboard_probe_agrees_with_writer Sample.legacyBrowser
                    Sample.bareNavigator Sample.sharedFile [] eq_refl)).
    right. reflexivity.
  - apply (proj2 (clipboard_probe_agrees_with_writer
                    (Sample.browser Sample.goodWindow
                                    (Sample.fullNavigator (Ret tt) (Ret tt))
                                    Sample.deadFetch)
                    (Sample.fullNavigator (Ret tt) (Ret tt))
                    Sample.sharedFile [] eq_refl)
             [EvNewClipboardItem "image/png" Sample.pngBlob;
              EvClipboardWrite "image/png" Sample.pngBlob]).
    reflexivity.
Defined.

(* ------------------------------------------------------------------ *)
(** ** Facts about strings *)

Section Strings.

Import JsString.

Lemma append_nil_r s : s ++ "" = s.
Proof. induction s as [| c s IH]; cbn; [reflexivity | now rewrite IH]. Qed.

Lemma append_assoc a b c : (a ++ b) ++ c = a ++ (b ++ c).
Proof. induction a as [| x a IH]; cbn; [reflexivity | now rewrite IH]. Qed.


Lemma rev_append_spec s acc : rev_append s acc = rev s ++ acc.
Proof.
  unfold rev. revert acc.
  induction s as [| c s IH]; intros acc; cbn; [reflexivity |].
  rewrite (IH (String c acc)), (IH (String c "")), append_assoc.
  reflexivity.
Qed.

Lemma rev_cons c s : rev (String c s) = rev s ++ String c "".
Proof. unfold rev at 1. cbn. apply rev_append_spec. Qed.

Lemma rev_app a b : rev (a ++ b) = rev b ++ rev a.
Proof.
  induction a as [| c a IH]; cbn [append].
  - now rewrite append_nil_r.
  - now rewrite !rev_cons, IH, append_assoc.
Qed.

Lemma rev_involutive s : rev (rev s) = s.
Proof.
  induction s as [| c s IH]; [reflexivity |].
  now rewrite rev_cons, rev_app, IH.
Qed.


Lemma isEmpty_rev s : isEmpty (rev s) = isEmpty s.
Proof.
  destruct s as [| c s]; [reflexivity |].
  rewrite rev_cons. now destruct (rev s).
Qed.

Lemma isEmpty_true s : isEmpty s = true -> s = "".
Proof. now destruct s. Qed.

Lemma map_app f a b : map f (a ++ b) = map f a ++ map f b.
Proof. induction a as [| c a IH]; cbn; [reflexivity | now rewrite IH]. Qed.

Lemma forallb_app p a b : forallb p (a ++ b) = forallb p a && forallb p b.
Proof.
  induction a as [| c a IH]; cbn; [reflexivity |].
  now rewrite IH, andb_assoc.
Qed.

Lemma lowerChar_idem c : lowerChar (lowerChar c) = lowerChar c.
Proof. destruct c as [[] [] [] [] [] [] [] []]; reflexivity. Qed.

Lemma toLowerCase_idem s : toLowerCase (toLowerCase s) = toLowerCase s.
Proof.
  unfold toLowerCase.
  induction s as [| c s IH]; cbn; [reflexivity |].
  now rewrite lowerChar_idem, IH.
Qed.

Lemma splitHead_app sep a b :
  splitHead sep (a ++ String sep b) = splitHead sep a.
Proof.
  induction a as [| c a IH]; cbn.
  - now rewrite Ascii.eqb_refl.
  - destruct (Ascii.eqb c sep); [reflexivity | now rewrite IH].
Qed.

Lemma trimStart_idem s : trimStart (trimStart s) = trimStart s.
Proof.
  induction s as [| c s IH]; cbn; [reflexivity |].
  destruct (isWhiteSpace c) eqn:E; [exact IH |]. cbn. now rewrite E.
Qed.

Lemma trimStart_clean s : startsClean (trimStart s).
Proof.
  induction s as [| c s IH]; cbn; [exact I |].
  destruct (isWhiteSpace c) eqn:E; [exact IH | exact E].
Qed.

Lemma trimStart_fixed s : startsClean s -> trimStart s = s.
Proof. destruct s as [| c s]; cbn; [trivial | now intros ->]. Qed.

Lemma trimStart_snoc x c :
  trimStart (x ++ String c "") =
  if isEmpty (trimStart x) then trimStart (String c "")
  else trimStart x ++ String c "".
Proof.
  induction x as [| a x IH]; [reflexivity |].
  cbn [append trimStart]. destruct (isWhiteSpace a); [exact IH | reflexivity].
Qed.

Lemma trimEnd_cons c r :
  trimEnd (String c r) =
  if isEmpty (trimEnd r)
  then (if isWhiteSpace c then "" else String c "")
  else String c (trimEnd r).
Proof.
  unfold trimEnd. rewrite rev_cons, trimStart_snoc, isEmpty_rev.
  destruct (isEmpty (trimStart (rev r))).
  - cbn. now destruct (isWhiteSpace c).
  - now rewrite rev_app.
Qed.

Lemma trimEnd_clean s : startsClean s -> startsClean (trimEnd s).
Proof.
  destruct s as [| c r]; [trivial |]. cbn [startsClean]. intros Hc.
  rewrite trimEnd_cons, Hc. now destruct (isEmpty (trimEnd r)).
Qed.

Lemma trimEnd_idem s : trimEnd (trimEnd s) = trimEnd s.
Proof. unfold trimEnd. now rewrite rev_involutive, trimStart_idem. Qed.

Lemma trim_clean s : startsClean (trim s) /\ startsClean (rev (trim s)).
Proof.
  unfold trim. split.
  - apply trimEnd_clean, trimStart_clean.
  - unfold trimEnd. rewrite rev_involutive. apply trimStart_clean.
Qed.

Lemma trim_idem s : trim (trim s) = trim s.
Proof.
  unfold trim at 1.
  rewrite (trimStart_fixed (trim s)) by apply trim_clean.
  unfold trim. apply trimEnd_idem.
Qed.

Lemma endsWith_app x p : endsWith (x ++ p) p = true.
Proof.
  unfold endsWith. rewrite rev_app.
  induction (rev p) as [| c q IH]; cbn; [now destruct (rev x) |].
  destruct (ascii_dec c c) as [_ | H]; [exact IH | now destruct H].
Qed.

End Strings.

(* ------------------------------------------------------------------ *)
(** ** Names, extensions and MIME types *)

Lemma extensionFromContentType_values contentType :
  let ext := extensionFromContentType contentType in
  ext = "" \/ ext = ".png" \/ ext = ".jpg" \/ ext = ".webp" \/ ext = ".gif".
Proof.
  cbn zeta. pose proof (extensionFromContentType_table contentType) as H.
  inversion H; auto 6.
Qed.

Lemma fallbackName_clean contentType :
  let name := "shared-image" ++ extensionFromContentType contentType in
  name <> "" /\ JsString.trim name = name /\
  startsClean name /\ startsClean (JsString.rev name).
Proof.
  cbn zeta.
  destruct (extensionFromContentType_values contentType)
    as [-> | [-> | [-> | [-> | ->]]]];
    (split; [discriminate | repeat split; reflexivity]).
Qed.

(** X14.  The name [fileFromBlob] gives a file is never empty and never
    begins or ends with white space; trimming it changes nothing.  This
    holds for every blob and every requested file name, blank ones
    included. *)
Theorem file_name_is_clean
    (b : Blob) (filename : option string) (via : FetchedVia)
    (env : Env) (t : Trace) :
  exists f,
    run (fileFromBlob b filename via) env t = (Ret f, t) /\
    file_name f <> "" /\
    JsString.trim (file_name f) = file_name f /\
    startsClean (file_name f) /\
    startsClean (JsString.rev (file_name f)).
Proof.
  rewrite fileFromBlob_run. eexists. split; [reflexivity |]. cbn.
  destruct filename as [f |]; cbn; [| apply fallbackName_clean].
  unfold JsString.orElse.
  destruct (JsString.isEmpty (JsString.trim f)) eqn:E;
    [apply fallbackName_clean |].
  split; [intros H; rewrite H in E; discriminate |].
  split; [apply trim_idem | apply trim_clean].
Qed.

(** X15.  The extension depends on the media type only: parameters after
    a semicolon and the case of the letters do not change it, so
    [extensionFromContentType] gives "IMAGE/PNG; charset=binary" the
    extension of "image/png". *)
Theorem extension_ignores_case_and_parameters (contentType params : string) :
  extensionFromContentType (contentType ++ ";" ++ params) =
    extensionFromContentType contentType /\
  extensionFromContentType (JsString.toLowerCase contentType) =
    extensionFromContentType contentType.
Proof.
  unfold extensionFromContentType. split.
  - unfold JsString.toLowerCase. rewrite map_app.
    change (JsString.map JsString.lowerChar (";" ++ params))
      with (String ";" (JsString.map JsString.lowerChar params)).
    now rewrite splitHead_app.
  - now rewrite toLowerCase_idem.
Qed.

Lemma inferImageMime_is_image file m :
  inferImageMime file = Some m -> JsString.startsWith m "image/" = true.
Proof.
  unfold inferImageMime.
  destruct (negb (JsString.isEmpty (file_type file))
            && JsString.startsWith (file_type file) "image/") eqn:E.
  - intros H. inversion H; subst. now apply andb_true_iff in E.
  - repeat match goal with
           | |- context [if ?c then _ else _] => destruct c
           end; intros H; inversion H; reflexivity.
Qed.

(** X16.  The MIME type under which a file is written to the clipboard
    always begins with "image/": it is the file's own type when that is
    an image type, the type named by the file name's extension otherwise,
    and image/png when neither tells. *)
Theorem clipboard_mime_is_image (file : File) :
  JsString.startsWith (clipboardMime file) "image/" = true /\
  (JsString.startsWith (file_type file) "image/" = true ->
   clipboardMime file = file_type file) /\
  (inferImageMime file = None -> clipboardMime file = "image/png").
Proof.
  unfold clipboardMime. split; [| split].
  - destruct (inferImageMime file) as [m |] eqn:E; [| reflexivity].
    pose proof (inferImageMime_is_image file m E) as Hm.
    destruct m; [discriminate | exact Hm].
  - intros H. unfold inferImageMime. rewrite H.
    destruct (file_type file); [discriminate | reflexivity].
  - now intros ->.
Qed.

Lemma clipboard_mime_is_image_witness :
  clipboardMime Scenario.preloaded = "image/png" /\
  clipboardMime {| file_bytes := []; file_name := "notes.txt";
                   file_type := "text/plain"; file_lastModified := 0;
                   __fetchedVia := None |} = "image/png".
Proof.
  split.
  - apply (proj1 (proj2 (clipboard_mime_is_image Scenario.preloaded))).
    reflexivity.
  - apply (proj2 (proj2 (clipboard_mime_is_image
             {| file_bytes := []; file_name := "notes.txt";
                file_type := "text/plain"; file_lastModified := 0;
                __fetchedVia := None |}))).
    reflexivity.
Defined.

(** X17.  The two tables of the module agree.  If a content type has a
    known extension and a file whose own type is not an image type is
    named with that extension (after any base name), [inferImageMime]
    gives back the media type of the content type. *)
Theorem extension_then_mime_round_trip
    (file : File) (contentType base : string) :
  JsString.startsWith (file_type file) "image/" = false ->
  extensionFromContentType contentType <> "" ->
  file_name file = base ++ extensionFromContentType contentType ->
  inferImageMime file = Some (mediaTypeOf contentType).
Proof.
  intros Hty Hext Hname. unfold inferImageMime.
  rewrite Hty, andb_false_r, Hname.
  unfold JsString.toLowerCase. rewrite map_app.
  pose proof (extensionFromContentType_table contentType) as H.
  remember (mediaTypeOf contentType) as m eqn:Em.
  remember (extensionFromContentType contentType) as e eqn:Ee.
  destruct H; try congruence;
    match goal with
    | |- context [JsString.map JsString.lowerChar (String ?c ?r)] =>
        let v := eval vm_compute in
                   (JsString.map JsString.lowerChar (String c r)) in
        change (JsString.map JsString.lowerChar (String c r)) with v
    end;
    rewrite endsWith_app; unfold JsString.endsWith; rewrite ?rev_app;
    vm_compute; reflexivity.
Qed.

Lemma extension_then_mime_round_trip_witness :
  inferImageMime {| file_bytes := []; file_name := "Holiday Photo.jpg";
                    file_type := ""; file_lastModified := 0;
                    __fetchedVia := None |} =
  Some (mediaTypeOf "Image/JPEG; q=1").
Proof.
  apply (extension_then_mime_round_trip
           {| file_bytes := []; file_name := "Holiday Photo.jpg";
              file_type := ""; file_lastModified := 0;
              __fetchedVia := None |}
           "Image/JPEG; q=1" "Holiday Photo").
  - reflexivity.
  - vm_compute. discriminate.
  - reflexivity.
Defined.

(* ------------------------------------------------------------------ *)
(** ** The optimizer URL *)










(* ------------------------------------------------------------------ *)
(** ** The click handlers of the page *)

Lemma shareImageToInstagram_outcome env options t :
  exists r t',
    run (shareImageToInstagram options) env t = (Ret r, t') /\
    match r with
    | ShareOk _ m _ => m = web_share
    | ShareFail _ _ _ => True
    end.
Proof.
  rewrite shareImageToInstagram_run.
  set (payload := {| kind := "image"; imageUrl := imageUrl options;
                     filename := filename options; title := title options;
                     text := text options |}).
  destruct (env_window env) as [w |] eqn:Hwin;
    [| rewrite shareImageViaWebShare_not_in_browser by auto; js_done].
  destruct (env_navigator env) as [n |] eqn:Hnav;
    [| rewrite shareImageViaWebShare_not_in_browser by auto; js_done].
  destruct (navigator_share n) as [| | | share_fn] eqn:Hshare;
    try (rewrite (shareImageViaWebShare_no_share env w n Hwin Hnav payload t)
          by (rewrite Hshare; discriminate); js_done).
  destruct (shareImageViaWebShare_returns_image env w n Hwin Hnav payload
              share_fn Hshare eq_refl t) as (r & t' & Hrun & Hr).
  exists r, t'. split; [exact Hrun |]. now destruct r.
Qed.

(** X20.  A click on the share button never throws, whatever the browser
    does, and shows at most one alert. *)
Theorem onShare_at_most_one_alert
    (env : Env) (preparedFile : option File) (t : Trace) :
  exists alerts t',
    run (Home.onShare preparedFile) env t = (Ret alerts, t') /\
    length alerts <= 1.
Proof.
  destruct (shareImageToInstagramDirect_returns_any env
              (Home.directRequest preparedFile) t) as (r1 & t1 & H1 & Hfail).
  unfold Home.onShare. rewrite (run_bind_ret _ _ env t _ _ H1).
  destruct r1 as [p m d | p reason error].
  - destruct (shareImageToInstagramDirect_success env _ t t1 p m d H1)
      as (details & -> & _ & Hm & _).
    rewrite (run_bind_ret _ _ env t1 _ _ (run_ret _ env t1)).
    destruct m.
    + js_done. destruct (clipboard details); cbn; lia.
    + js_done. destruct (clipboard details); cbn; lia.
    + assert (Hc : clipboard details = Clipboard.copied) by now apply Hm.
      rewrite Hc. js_done.
  - destruct (Hfail p reason error eq_refl) as [[-> | ->] ->].
    + rewrite (run_bind_ret _ _ env t1 _ _ (run_ret _ env t1)). js_done.
    + destruct (shareImageToInstagram_outcome env Home.nativeRequest t1)
        as (r2 & t2 & H2 & Hr2).
      rewrite (run_bind_ret _ _ env t1 _ _ H2).
      destruct r2 as [p2 m2 d2 | p2 reason2 error2].
      * rewrite Hr2. js_done.
      * destruct reason2; js_done.
Qed.

(** X21.  When the direct strategy fails with [not_supported] (the deep
    link could not be opened), the click handler goes on with the Web
    Share strategy, starting from the calls already made, and the alert
    follows that second result: none when the share sheet completed or
    the user cancelled it, the "Sharing is not supported" message for
    [not_supported], and "Share failed: <reason>" for any other reason. *)
Theorem onShare_falls_back_to_web_share
    (env : Env) (preparedFile : option File) (t t1 t2 : Trace)
    (p : ShareProviderId) (error : option JsVal) (second : ShareResult) :
  run (shareImageToInstagramDirect (Home.directRequest preparedFile)) env t =
    (Ret (ShareFail p Reason.not_supported error), t1) ->
  run (shareImageToInstagram Home.nativeRequest) env t1 = (Ret second, t2) ->
  exists alerts,
    run (Home.onShare preparedFile) env t = (Ret alerts, t2) /\
    match second with
    | ShareOk _ _ _ => alerts = []
    | ShareFail _ Reason.user_cancelled _ => alerts = []
    | ShareFail _ Reason.not_supported _ => alerts = [Home.sharingUnsupported]
    | ShareFail _ reason _ =>
        alerts = ["Share failed: " ++ Home.reasonText reason]
    end.
Proof.
  intros H1 H2.
  unfold Home.onShare. rewrite (run_bind_ret _ _ env t _ _ H1).
  rewrite (run_bind_ret _ _ env t1 _ _ H2).
  destruct (shareImageToInstagram_outcome env Home.nativeRequest t1)
    as (r2 & t2' & H2' & Hr2).
  rewrite H2 in H2'. inversion H2'; subst r2 t2'.
  destruct second as [p2 m2 d2 | p2 reason2 error2].
  - rewrite Hr2. eexists. split; reflexivity.
  - destruct reason2; eexists; split; reflexivity.
Qed.

Lemma onShare_falls_back_to_web_share_witness :
  run (Home.onShare None)
      (Sample.browser Sample.lockedWindow Sample.bareNavigator Sample.deadFetch)
      [] =
    (Ret [Home.sharingUnsupported],
     [EvLocationAssign "instagram://story-camera";
      EvWindowOpen "instagram://story-camera" "_blank"]) /\
  run (Home.onShare (Some Scenario.preloaded))
      (Sample.browser Sample.lockedWindow
         (Sample.fullNavigator (Throw Sample.abortError) (Ret tt))
         Sample.openFetch) [] =
    (Ret [],
     [EvNewClipboardItem "image/png" Sample.pngBlob;
      EvClipboardWrite "image/png" Sample.pngBlob;
      EvLocationAssign "instagram://story-camera";
      EvWindowOpen "instagram://story-camera" "_blank";
      EvFetch Home.shownImageUrl; EvResponseBlob Home.shownImageUrl;
      EvCanShare [{| file_bytes := [x89; x50; x4e; x47];
                     file_name := "social-sharing.png";
                     file_type := "image/png";
                     file_lastModified := 1765800000000;
                     __fetchedVia := Some direct |}];
      EvShare {| share_files :=
                   [{| file_bytes := [x89; x50; x4e; x47];
                       file_name := "social-sharing.png";
                       file_type := "image/png";
                       file_lastModified := 1765800000000;
                       __fetchedVia := Some direct |}];
                 share_title := Some "Share image";
                 share_text := None |}]).
Proof.
  split.
  - destruct (onShare_falls_back_to_web_share
                (Sample.browser Sample.lockedWindow Sample.bareNavigator
                                Sample.deadFetch)
                None []
                [EvLocationAssign "instagram://story-camera";
                 EvWindowOpen "instagram://story-camera" "_blank"]
                [EvLocationAssign "instagram://story-camera";
                 EvWindowOpen "instagram://story-camera" "_blank"]
                instagram None
                (ShareFail instagram Reason.not_supported None)
                eq_refl eq_refl) as (alerts & Hrun & Halerts).
    rewrite Hrun, Halerts. reflexivity.
  - destruct (onShare_falls_back_to_web_share
                (Sample.browser Sample.lockedWindow
                   (Sample.fullNavigator (Throw Sample.abortError) (Ret tt))
                   Sample.openFetch)
                (Some Scenario.preloaded) []
                [EvNewClipboardItem "image/png" Sample.pngBlob;
                 EvClipboardWrite "image/png" Sample.pngBlob;
                 EvLocationAssign "instagram://story-camera";
                 EvWindowOpen "instagram://story-camera" "_blank"]
                _ instagram None
                (ShareFail instagram Reason.user_cancelled
                           (Some Sample.abortError))
                eq_refl eq_refl) as (alerts & Hrun & Halerts).
    rewrite Hrun, Halerts. reflexivity.
Defined.

(** X22.  In a page that cannot write images to the clipboard, when the
    deep link opens, a click shows exactly one alert, the notice that the
    clipboard is not supported, and calls nothing but the deep-link
    opener: although the notice announces the system share sheet, the
    handler does not invoke it after a successful deep link. *)
Theorem onShare_clipboard_notice
    (env : Env) (w : Window) (n : Navigator) (preparedFile : option File)
    (t t' : Trace) :
  env_window env = Some w ->
  env_navigator env = Some n ->
  ClipboardWriteAbsent env n ->
  run (tryOpenDeepLink "instagram://story-camera") env t = (Ret true, t') ->
  run (Home.onShare preparedFile) env t = (Ret [Home.clipboardNotice], t') /\
  exists evs, extends t t' evs /\ deepLinkCalls "instagram://story-camera" evs.
Proof.
  intros Hwin Hnav Habs Ho. split.
  - pose proof (shareImageToInstagramDirect_run env w n Hwin Hnav
                  (Home.directRequest preparedFile) t
                  false Clipboard.not_supported None t true t'
                  (directClipboardStep_unsupported env n Hnav
                     (Home.directRequest preparedFile) t eq_refl Habs) Ho)
      as H1.
    unfold Home.onShare. rewrite (run_bind_ret _ _ env t _ _ H1).
    reflexivity.
  - destruct (tryOpenDeepLink_calls env w t "instagram://story-camera" Hwin)
      as (b & t'' & evs & Hrun & Hext & Hcalls).
    rewrite Ho in Hrun. inversion Hrun; subst. eauto.
Qed.

Lemma onShare_clipboard_notice_witness :
  run (Home.onShare None) Sample.legacyBrowser [] =
  (Ret [Home.clipboardNotice], [EvLocationAssign "instagram://story-camera"]).
Proof.
  apply (onShare_clipboard_notice Sample.legacyBrowser Sample.goodWindow
           Sample.bareNavigator None []
           [EvLocationAssign "instagram://story-camera"]
           eq_refl eq_refl (or_intror eq_refl) eq_refl).
Defined.

(** X23.  A click on the native-share button never throws.  It runs
    [shareImageToInstagram] once and shows no alert when the share sheet
    completed or the user cancelled it, and exactly one alert for every
    other failure. *)
Theorem onNativeShare_alerts (env : Env) (t : Trace) :
  exists result alerts t',
    run (shareImageToInstagram Home.nativeRequest) env t = (Ret result, t') /\
    run Home.onNativeShare env t = (Ret alerts, t') /\
    length alerts <= 1 /\
    (alerts = [] <->
     (exists p m d, result = ShareOk p m d) \/
     (exists p e, result = ShareFail p Reason.user_cancelled e)).
Proof.
  destruct (shareImageToInstagram_outcome env Home.nativeRequest t)
    as (r & t' & Hrun & _).
  assert (Hn : run Home.onNativeShare env t =
               run (match r with
                    | ShareOk _ _ _ => ret []
                    | ShareFail _ Reason.user_cancelled _ => ret []
                    | ShareFail _ Reason.not_supported _ =>
                        ret [Home.nativeUnsupported]
                    | ShareFail _ reason _ =>
                        ret ["Native share failed: " ++ Home.reasonText reason]
                    end) env t').
  { unfold Home.onNativeShare. now rewrite (run_bind_ret _ _ env t _ _ Hrun). }
  exists r. destruct r as [p m d | p reason error].
  - exists [], t'. split; [exact Hrun |]. split; [exact Hn |].
    split; [cbn; lia |]. split; eauto.
  - destruct reason;
      (eexists; exists t'; split; [exact Hrun |]; split; [exact Hn |];
       split; [cbn; lia |];
       split;
       [ intros H; try discriminate; eauto
       | intros [(p' & m & d & H) | (p' & e & H)];
         try discriminate; reflexivity ]).
Qed.
